(** * The React Native debugging bridge: script importer, conditional HTTP
      client, sandbox worker and connection supervisor.

    Shallow embedding of
      - [src/common/node/request.ts]      (class [Request]),
      - [src/debugger/scriptImporter.ts]  (class [ScriptImporter]),
      - the App Center command handler    (class [AppCenterCommandPalleteHandler]),
    and, for the two classes whose sources are exercised only by the test
    suite ([ForkedAppWorker], [MultipleLifetimesAppWorker]), a model that
    follows the design document.

    Conventions.  A TypeScript value of type [string | null] (or an optional
    [string]) is an [option string]: [None] stands for both [null] and
    [undefined], which the code never tells apart (it only tests
    truthiness).  A settled Q promise is a value of [Settled]; a method that
    performs I/O is a function on an explicit [World] that records every
    effect in a trace. *)

From Stdlib Require Import ZArith String Ascii List Bool Lia.
From stdpp Require Import base option list strings gmap pretty.

Local Open Scope string_scope.
Local Open Scope Z_scope.
Local Open Scope list_scope.

(* ===================================================================== *)
(** ** JavaScript values                                                  *)
(* ===================================================================== *)

Module Js.

(** [if (s)] on a value of type [string | null | undefined]: only a
    non-empty string is truthy. *)
Definition truthy (s : option string) : bool :=
  match s with
  | Some EmptyString => false
  | Some (String _ _) => true
  | None => false
  end.

(** [s || ""]. *)
Definition or_empty (s : option string) : string := default "" s.

(** An [Error] object: the constructor used and its message. *)
Inductive ErrorKind := KError | KRangeError.

Record Error := mkError { err_kind : ErrorKind; err_message : string }.

(** A Q promise, once settled. *)
Inductive Settled (A : Type) :=
| Fulfilled (a : A)
| Rejected (e : Error).
Arguments Fulfilled {A} a.
Arguments Rejected {A} e.

(** [String.prototype.startsWith]. *)
Fixpoint startsWith (p s : string) : bool :=
  match p, s with
  | EmptyString, _ => true
  | String a p', String b s' => if Ascii.eqb a b then startsWith p' s' else false
  | String _ _, EmptyString => false
  end.

(** [String.prototype.includes]. *)
Fixpoint includes (sub s : string) : bool :=
  startsWith sub s ||
  match s with
  | EmptyString => false
  | String _ s' => includes sub s'
  end.

(** [sub] occurs in [s]. *)
Definition contains (sub s : string) : Prop :=
  exists pre post, s = pre +:+ sub +:+ post.

(** [Number.prototype.toString] on an integer. *)
Definition toString (n : Z) : string := pretty n.

End Js.

Export Js.

(* ===================================================================== *)
(** ** Node's legacy [url] objects                                        *)
(* ===================================================================== *)

Module NodeUrl.

(** The object returned by [url.parse].  [pathname] and [href] are plain
    strings, as in the [IStrictUrl] interface the importer casts to. *)
Record Url := mkUrl {
  protocol : option string;
  slashes  : bool;
  auth     : option string;
  host     : option string;
  port     : option string;
  hostname : option string;
  hash     : option string;
  search   : option string;
  pathname : string;
  href     : string
}.

(** [components.port = p]. *)
Definition set_port (p : string) (u : Url) : Url :=
  mkUrl (protocol u) (slashes u) (auth u) (host u) (Some p) (hostname u)
        (hash u) (search u) (pathname u) (href u).

(** [delete components.host]. *)
Definition delete_host (u : Url) : Url :=
  mkUrl (protocol u) (slashes u) (auth u) None (port u) (hostname u)
        (hash u) (search u) (pathname u) (href u).

(** [components.host = h]. *)
Definition set_host (h : string) (u : Url) : Url :=
  mkUrl (protocol u) (slashes u) (auth u) (Some h) (port u) (hostname u)
        (hash u) (search u) (pathname u) (href u).

Definition first_is (c : ascii) (s : string) : bool :=
  match s with
  | String a _ => Ascii.eqb a c
  | EmptyString => false
  end.

Fixpoint last_is (c : ascii) (s : string) : bool :=
  match s with
  | EmptyString => false
  | String a EmptyString => Ascii.eqb a c
  | String _ s' => last_is c s'
  end.

(** Protocols after which [url.format] always writes [//]. *)
Definition slashedProtocol (p : string) : bool :=
  bool_decide (p ∈ ["http"; "http:"; "https"; "https:"; "ftp"; "ftp:";
                    "gopher"; "gopher:"; "file"; "file:"]).

(** [pathname.replace(/[?#]/g, encodeURIComponent)]. *)
Fixpoint escape_pathname (s : string) : string :=
  match s with
  | EmptyString => EmptyString
  | String c s' =>
      if Ascii.eqb c "?" then "%3F" +:+ escape_pathname s'
      else if Ascii.eqb c "#" then "%23" +:+ escape_pathname s'
      else String c (escape_pathname s')
  end.

(** [search.replace("#", "%23")]: the first occurrence only. *)
Fixpoint escape_search (s : string) : string :=
  match s with
  | EmptyString => EmptyString
  | String c s' =>
      if Ascii.eqb c "#" then "%23" +:+ s' else String c (escape_search s')
  end.

(** Characters [encodeURIComponent] leaves alone. *)
Definition unreserved (c : ascii) : bool :=
  let n := nat_of_ascii c in
  ((48 <=? n) && (n <=? 57) || (65 <=? n) && (n <=? 90)
   || (97 <=? n) && (n <=? 122))%nat
  || includes (String c "") "-_.!~*'()".

Definition hex_digit (n : nat) : ascii :=
  match String.get n "0123456789ABCDEF" with
  | Some c => c
  | None => "0"%char
  end.

(** [%XX] for one byte. *)
Definition percent (c : ascii) : string :=
  let n := nat_of_ascii c in
  String "%" (String (hex_digit (n / 16)) (String (hex_digit (n mod 16)) "")).

(** [encodeURIComponent(auth).replace(/%3A/i, ":")]: every byte but the
    unreserved ones is escaped, and the first colon is put back. *)
Fixpoint encode_auth (colon : bool) (s : string) : string :=
  match s with
  | EmptyString => EmptyString
  | String c s' =>
      if colon && Ascii.eqb c ":" then String c (encode_auth false s')
      else if unreserved c then String c (encode_auth colon s')
      else percent c +:+ encode_auth colon s'
  end.

(** The host part [url.format] builds: [host] when it is set, otherwise
    [hostname] followed by [":" + port] when a port is set. *)
Definition format_host (u : Url) : option string :=
  if truthy (host u) then Some (or_empty (host u))
  else if truthy (hostname u) then
    let hn := or_empty (hostname u) in
    let hn := if includes ":" hn then "[" +:+ hn +:+ "]" else hn in
    Some (if truthy (port u) then hn +:+ ":" +:+ or_empty (port u) else hn)
  else None.

(** [url.format(urlObject)] of the legacy API, for a URL object whose
    [query] is not an object (as [url.parse] returns it when it is not
    asked to parse the query string). *)
Definition url_format (u : Url) : string :=
  let a := if truthy (auth u)
           then encode_auth true (or_empty (auth u)) +:+ "@" else "" in
  let proto := or_empty (protocol u) in
  let proto := if truthy (protocol u) && negb (last_is ":" proto)
               then proto +:+ ":" else proto in
  let h := option_map (String.append a) (format_host u) in
  let slashed := slashes u
                 || ((negb (truthy (Some proto)) || slashedProtocol proto)
                     && bool_decide (is_Some h)) in
  let hostpart := if slashed then "//" +:+ or_empty h else or_empty h in
  let path := if slashed && truthy (Some (pathname u))
                 && negb (first_is "/" (pathname u))
              then "/" +:+ pathname u else pathname u in
  let hsh := or_empty (hash u) in
  let hsh := if truthy (hash u) && negb (first_is "#" hsh)
             then "#" +:+ hsh else hsh in
  let srch := or_empty (search u) in
  let srch := if truthy (search u) && negb (first_is "?" srch)
              then "?" +:+ srch else srch in
  proto +:+ hostpart +:+ escape_pathname path +:+ escape_search srch +:+ hsh.

End NodeUrl.

Export NodeUrl.

(* ===================================================================== *)
(** ** HTTP and the world the bridge runs in                              *)
(* ===================================================================== *)

(** A wire message is a JSON object: at least [method], optionally [id]
    and [url].  Only scalar fields matter here. *)
Inductive Json :=
| JNull
| JBool (b : bool)
| JNum (n : Z)
| JStr (s : string).

#[global] Instance Json_eq_dec : EqDecision Json.
Proof. solve_decision. Defined.

Abbreviation Message := (gmap string Json).

(** The argument of [http.get]: the target and the request headers. *)
Record HttpRequest := mkRequest {
  req_url     : string;
  req_headers : gmap string string
}.

(** An [http.IncomingMessage] read to its end.  [res_headers] is optional
    because the code guards its access with [res.headers ? ... : null]. *)
Record HttpResponse := mkResponse {
  statusCode  : Z;
  res_headers : option (gmap string string);
  res_body    : string
}.

(** What a GET ends in: the ["error"] event or a response. *)
Inductive HttpOutcome :=
| NetError (e : Error)
| Responded (r : HttpResponse).

(** A source map download that was started and is not awaited. *)
Record SourceMapJob := mkJob {
  job_outcome   : HttpOutcome;
  job_mapUrl    : Url;
  job_scriptUrl : Url
}.

Inductive Effect :=
| EHttpGet (r : HttpRequest)
| EWriteFile (path content : string)
| EIsRunning (host : string)
| EImport (url : string)          (* a worker calls [downloadAppScript] *)
| EChildSend (data : Message)      (* [debuggeeProcess.send({ data })] *)
| ELog (msg : string).

Record World := mkWorld {
  files   : gmap string string;          (* the file system *)
  net     : HttpRequest -> HttpOutcome;  (* the servers *)
  running : string -> bool;              (* is a packager up at this host *)
  pending : list SourceMapJob;           (* downloads nobody waits for *)
  trace   : list Effect                  (* effects so far, oldest first *)
}.

Definition emit (e : Effect) (w : World) : World :=
  mkWorld (files w) (net w) (running w) (pending w) (trace w ++ [e]).

Definition defer (j : SourceMapJob) (w : World) : World :=
  mkWorld (files w) (net w) (running w) (pending w ++ [j]) (trace w).

(** [http.get(request, ...)]: the request goes out, the outcome comes back. *)
Definition http_get (r : HttpRequest) (w : World) : HttpOutcome * World :=
  (net w r, emit (EHttpGet r) w).

(** The effects of [w'] that happened after [w]. *)
Definition since (w w' : World) : list Effect :=
  drop (length (trace w)) (trace w').

Definition is_write (e : Effect) : bool :=
  match e with EWriteFile _ _ => true | _ => false end.

Definition is_get (e : Effect) : bool :=
  match e with EHttpGet _ => true | _ => false end.

Definition writes (l : list Effect) : list Effect := List.filter is_write l.
Definition gets (l : list Effect) : list Effect := List.filter is_get l.

(* ===================================================================== *)
(** ** [Request]  (src/common/node/request.ts)                            *)
(* ===================================================================== *)

Module Request.

Record ScriptResponse := mkScriptResponse {
  etag : option string;
  code : Z;
  body : string
}.

(** The argument handed to [http.get]: the bare URL, or the parsed URL
    with an [If-None-Match] header when [etag] is truthy. *)
Definition etag_request (scriptUrl : string) (etag : option string) : HttpRequest :=
  if truthy etag
  then mkRequest scriptUrl {[ "If-None-Match" := or_empty etag ]}
  else mkRequest scriptUrl ∅.

(** [res.headers ? res.headers.etag : null]. *)
Definition response_etag (r : HttpResponse) : option string :=
  match res_headers r with
  | Some h => h !! "etag"
  | None => None
  end.

Definition requestWithEtag (scriptUrl : string) (etag : option string)
    (w : World) : Settled ScriptResponse * World :=
  let '(out, w1) := http_get (etag_request scriptUrl etag) w in
  match out with
  | NetError err => (Rejected err, w1)
  | Responded res =>
      if negb (statusCode res =? 200) && negb (statusCode res =? 304)
      then (Rejected (mkError KError (res_body res)), w1)
      else (Fulfilled (mkScriptResponse (response_etag res) (statusCode res)
                                        (res_body res)), w1)
  end.

(** What becomes of the outcome of a plain GET. *)
Definition request_result (expectStatusOK : bool) (out : HttpOutcome)
    : Settled string :=
  match out with
  | NetError err => Rejected err
  | Responded res =>
      if expectStatusOK && negb (statusCode res =? 200)
      then Rejected (mkError KError (res_body res))
      else Fulfilled (res_body res)
  end.

Definition request (scriptUrl : string) (expectStatusOK : bool)
    (w : World) : Settled string * World :=
  let '(out, w1) := http_get (mkRequest scriptUrl ∅) w in
  (request_result expectStatusOK out, w1).

End Request.




(* ===================================================================== *)
(** ** Collaborators whose sources are not part of this development       *)
(* ===================================================================== *)

(** Node's [url.parse], [path.join] and [path.basename], the three
    [SourceMapUtil] methods the importer calls, and [Packager.getHostForPort].
    They are taken as they come. *)
Class Collaborators := {
  url_parse           : string -> Url;
  path_join           : string -> string -> string;
  path_basename       : string -> string;
  getSourceMapURL     : Url -> string -> option Url;
  updateScriptPaths   : string -> Url -> string;
  updateSourceMapFile : string -> string -> string -> string;
  getHostForPort      : Z -> string
}.

(** [FileSystem] (common/node/fileSystem, not part of this development):
    the two operations the importer uses, on the in-memory file system of
    the world. *)
Module FileSystem.

(** Modelled from the spec: the file-system collaborator, whose source is
    missing; a file exists when the file system has a content for its
    path. *)
Definition existsSync (path : string) (w : World) : bool :=
  bool_decide (is_Some (files w !! path)).

(** Modelled from the spec: the file-system writer ("write file at
    path"), whose source is missing; the write succeeds and replaces the
    content at [path]. *)
Definition writeFile (path content : string) (w : World) : World :=
  mkWorld (<[path := content]> (files w)) (net w) (running w) (pending w)
          (trace w ++ [EWriteFile path content]).

End FileSystem.

(** The text of the error raised when no packager answers on [port]. *)
Definition cannotAttachText (port : Z) : string :=
  "Cannot attach to packager. Are you sure there is a packager and it is running in the port "
  +:+ toString port
  +:+ "? If your packager is configured to run in another port make sure to add that to the setting.json.".

(** Modelled from the spec: the proxy-reachability check
    ([isRunning(host) -> bool]; [Packager.isPackagerRunning] in the code,
    whose source is missing). *)
Definition isPackagerRunning (host : string) (w : World) : bool * World :=
  (running w host, emit (EIsRunning host) w).

(* ===================================================================== *)
(** ** [ScriptImporter]  (src/debugger/scriptImporter.ts)                 *)
(* ===================================================================== *)

Module ScriptImporter.
Section Importer.

Context `{Collaborators}.

Record t := mk {
  packagerPort       : Z;
  appScriptEtag      : option string;
  sourcesStoragePath : string
}.

Definition DEBUGGER_WORKER_FILE_BASENAME : string := "debuggerWorker".
Definition DEBUGGER_WORKER_FILENAME : string :=
  DEBUGGER_WORKER_FILE_BASENAME +:+ ".js".

(** [this.appScriptEtag = e]. *)
Definition set_etag (e : option string) (this : t) : t :=
  mk (packagerPort this) e (sourcesStoragePath this).

(** Changes the port of the url to be the one configured as
    [this.packagerPort]. *)
Definition overridePackagerPort (this : t) (urlToOverride : string) : string :=
  let components := url_parse urlToOverride in
  let components := set_port (toString (packagerPort this)) components in
  let components := delete_host components in
  url_format components.

(** The URL the bundle is fetched from. *)
Definition overriddenScriptUrlString (this : t) (scriptUrlString : string) : string :=
  let parsedScriptUrl := url_parse scriptUrlString in
  if bool_decide (hostname parsedScriptUrl = Some "localhost")
  then overridePackagerPort this scriptUrlString
  else scriptUrlString.

(** The local cache path of the bundle. *)
Definition scriptFilePath (this : t) (scriptUrlString : string) : string :=
  let scriptUrl := url_parse (overriddenScriptUrlString this scriptUrlString) in
  path_join (sourcesStoragePath this) (path_basename (pathname scriptUrl)).

(** Writes the source map file to the project temporary location: the
    part that runs at once.  The GET is issued; what follows its answer
    is left pending. *)
Definition writeAppSourceMap (this : t) (sourceMapUrl scriptUrl : Url)
    (w : World) : World :=
  let '(out, w1) := http_get (mkRequest (href sourceMapUrl) ∅) w in
  defer (mkJob out sourceMapUrl scriptUrl) w1.

(** ... and the part that runs when the answer has arrived. *)
Definition finishAppSourceMap (this : t) (j : SourceMapJob) (w : World)
    : Settled unit * World :=
  match Request.request_result true (job_outcome j) with
  | Rejected e => (Rejected e, w)
  | Fulfilled sourceMapBody =>
      let sourceMappingLocalPath :=
        path_join (sourcesStoragePath this)
                  (path_basename (pathname (job_mapUrl j))) in
      let scriptFileRelativePath := path_basename (pathname (job_scriptUrl j)) in
      let updatedContent :=
        updateSourceMapFile sourceMapBody scriptFileRelativePath
                            (sourcesStoragePath this) in
      (Fulfilled tt, FileSystem.writeFile sourceMappingLocalPath updatedContent w)
  end.

(** Downloads the bundle, or revalidates the cached one.  The result is
    that of the promise returned, with the importer and the world as the
    call leaves them.  The collaborators return: a [SourceMapUtil] method
    that throws or a write that fails, either of which would reject the
    promise after the ETag was stored, is outside this model, so that here
    a call is rejected by its GET only. *)
Definition downloadAppScript (this : t) (scriptUrlString : string) (w : World)
    : Settled string * t * World :=
  let overridden := overriddenScriptUrlString this scriptUrlString in
  let scriptUrl := url_parse overridden in
  let path := path_join (sourcesStoragePath this)
                        (path_basename (pathname scriptUrl)) in
  let this1 :=
    if negb (FileSystem.existsSync path w)
    then set_etag None this   (* zero etag: the request must return content *)
    else this in
  match Request.requestWithEtag overridden (appScriptEtag this1) w with
  | (Rejected e, w1) => (Rejected e, this1, w1)
  | (Fulfilled resp, w1) =>
      let this2 := set_etag (Request.etag resp) this1 in
      if Request.code resp =? 304
      then (Fulfilled path, this2, w1)
      else
        let '(scriptBody, w2) :=
          match getSourceMapURL scriptUrl (Request.body resp) with
          | None => (Request.body resp, w1)
          | Some sourceMappingUrl =>
              (updateScriptPaths (Request.body resp) sourceMappingUrl,
               writeAppSourceMap this2 sourceMappingUrl scriptUrl w1)
          end in
        let w3 := FileSystem.writeFile path scriptBody w2 in
        let w4 := emit (ELog ("Script " +:+ overridden +:+ " downloaded to "
                              +:+ path)) w3 in
        (Fulfilled path, this2, w4)
  end.

(** The importer as the request finds it: its ETag is forgotten when the
    cache file is missing. *)
Definition primed (this : t) (u : string) (w : World) : t :=
  if negb (FileSystem.existsSync (scriptFilePath this u) w)
  then set_etag None this
  else this.

(** The request [downloadAppScript] issues. *)
Definition bundleRequest (this : t) (u : string) (w : World) : HttpRequest :=
  Request.etag_request (overriddenScriptUrlString this u)
                       (appScriptEtag (primed this u w)).

(** The text written to the cache path for a response body. *)
Definition storedBody (this : t) (u body : string) : string :=
  match getSourceMapURL (url_parse (overriddenScriptUrlString this u)) body with
  | None => body
  | Some sourceMappingUrl => updateScriptPaths body sourceMappingUrl
  end.

Definition cannotAttachMessage (this : t) : string :=
  cannotAttachText (packagerPort this).

Definition debuggerWorkerURL (this : t) : string :=
  "http://" +:+ getHostForPort (packagerPort this) +:+ "/"
  +:+ DEBUGGER_WORKER_FILENAME.

Definition downloadDebuggerWorker (this : t) (w : World)
    : Settled string * World :=
  let '(isRunning, w1) :=
    isPackagerRunning (getHostForPort (packagerPort this)) w in
  if negb isRunning
  then (Rejected (mkError KRangeError (cannotAttachMessage this)), w1)
  else
    let w2 := emit (ELog ("About to download: " +:+ debuggerWorkerURL this)) w1 in
    Request.request (debuggerWorkerURL this) true w2.

End Importer.
End ScriptImporter.

(* ===================================================================== *)
(** ** SandboxWorker                                                      *)
(* ===================================================================== *)

Module SandboxWorker.
Section Worker.

Context `{Collaborators}.

(** Modelled from the spec: the per-lifetime worker ([ForkedAppWorker] in
    the test suite), whose source file is missing.  It is constructed with
    the proxy address and port and a storage directory, and owns the
    [ScriptImporter] of its lifetime. *)
Record t := mk {
  packagerAddress : string;
  packagerPort    : Z;
  scriptImporter  : ScriptImporter.t
}.

Definition create (address : string) (port : Z) (sourcesStoragePath : string) : t :=
  mk address port (ScriptImporter.mk port None sourcesStoragePath).

Definition set_importer (i : ScriptImporter.t) (this : t) : t :=
  mk (packagerAddress this) (packagerPort this) i.

(** Modelled from the spec: the bundle URL of the message, with its host
    replaced by the configured proxy address and port (the rewritten
    absolute URL the download is called with). *)
Definition rewrittenUrl (this : t) (u : string) : string :=
  url_format
    (set_host (packagerAddress this +:+ ":" +:+ toString (packagerPort this))
              (url_parse u)).

(** Modelled from the spec: [postMessage], missing with the worker's
    source.  An [executeApplicationScript] message has its bundle resolved
    through the importer and its [url] replaced by the local path before it
    is forwarded; any other message is forwarded as it is.  A failed
    download fails the call; so does a script message without a [url]. *)
Definition postMessage (this : t) (msg : Message) (w : World)
    : Settled Message * t * World :=
  if bool_decide (msg !! "method" = Some (JStr "executeApplicationScript"))
  then
    match msg !! "url" with
    | Some (JStr u) =>
        let remote := rewrittenUrl this u in
        let w1 := emit (EImport remote) w in
        let '(downloaded, imp, w2) :=
          ScriptImporter.downloadAppScript (scriptImporter this) remote w1 in
        match downloaded with
        | Rejected e => (Rejected e, set_importer imp this, w2)
        | Fulfilled path =>
            let rewritten : Message := <["url" := JStr path]> msg in
            (Fulfilled rewritten, set_importer imp this,
             emit (EChildSend rewritten) w2)
        end
    | _ => (Rejected (mkError KError "executeApplicationScript without url"),
            this, w)
    end
  else (Fulfilled msg, this, emit (EChildSend msg) w).

End Worker.
End SandboxWorker.

Definition is_import (e : Effect) : bool :=
  match e with EImport _ => true | _ => false end.

Definition is_send (e : Effect) : bool :=
  match e with EChildSend _ => true | _ => false end.

(** The importer neither talks to the child nor calls itself. *)
Definition quiet (e : Effect) : Prop := is_send e = false /\ is_import e = false.

(* ===================================================================== *)
(** ** ConnectionManager                                                  *)
(* ===================================================================== *)

Module ConnectionManager.

(** Modelled from the spec: the states of the connection. *)
Inductive ConnState := Disconnected | Connecting | Connected | Reconnecting.

(** Modelled from the spec: what the manager does, as seen from outside
    (the socket and the workers are stubs in the test suite).  Workers and
    sockets are named by numbers. *)
Inductive Action :=
| ASocketOpen (url : string)
| ASocketClose
| AReply (w : nat) (id : option Json)   (* send [{"replyID": id}], owed for [w] *)
| AWorkerCreate (w : nat)
| AWorkerStart (w : nat)
| AWorkerStop (w : nat)
| AWorkerDrop (w : nat)                 (* [w] failed to start and is unregistered *)
| AWorkerPost (w : nat) (msg : Message)
| ATimerSet (deadline : nat)
| ATimerCancel
| AReconnect
| AStartFailed (e : Error)
| ADropped.                             (* a malformed message, logged *)

(** Modelled from the spec: what happens to the manager. *)
Inductive Event :=
| Start
| Stop
| SocketOpened
| SocketMessage (m : option Message)    (* [None]: text that is not JSON *)
| SocketClosed (reason : string)
| SocketError
| WorkerStarted (w : nat) (ok : bool)   (* the promise of [w.start()] settles *)
| Elapse (ms : nat).

(** Modelled from the spec: the connection, with its socket, its active
    worker (at most one) and its pending reconnect timer. *)
Record t := mk {
  address  : string;
  port     : Z;
  state    : ConnState;
  socket   : option nat;
  worker   : option nat;                (* the active SandboxWorker *)
  timer    : option nat;                (* deadline of the pending reconnect *)
  starting : list (nat * option Json);  (* workers being started, with the id owed *)
  fresh    : nat;
  now      : nat;                       (* milliseconds *)
  log      : list (nat * Action)        (* oldest first, with the time *)
}.

Definition RECONNECT_DELAY : nat := 100.

(** The close reason the proxy gives when a debugger is already attached. *)
Definition ANOTHER_DEBUGGER : string := "Another debugger is already connected".

Definition init (address : string) (port : Z) : t :=
  mk address port Disconnected None None None [] 0 0 [].

Definition act (a : Action) (s : t) : t :=
  mk (address s) (port s) (state s) (socket s) (worker s) (timer s)
     (starting s) (fresh s) (now s) (log s ++ [(now s, a)]).

Definition set_state (c : ConnState) (s : t) : t :=
  mk (address s) (port s) c (socket s) (worker s) (timer s)
     (starting s) (fresh s) (now s) (log s).

Definition set_socket (k : option nat) (s : t) : t :=
  mk (address s) (port s) (state s) k (worker s) (timer s)
     (starting s) (fresh s) (now s) (log s).

Definition set_worker (k : option nat) (s : t) : t :=
  mk (address s) (port s) (state s) (socket s) k (timer s)
     (starting s) (fresh s) (now s) (log s).

Definition set_timer (k : option nat) (s : t) : t :=
  mk (address s) (port s) (state s) (socket s) (worker s) k
     (starting s) (fresh s) (now s) (log s).

Definition set_starting (l : list (nat * option Json)) (s : t) : t :=
  mk (address s) (port s) (state s) (socket s) (worker s) (timer s)
     l (fresh s) (now s) (log s).

Definition set_now (n : nat) (s : t) : t :=
  mk (address s) (port s) (state s) (socket s) (worker s) (timer s)
     (starting s) (fresh s) n (log s).

Definition take_fresh (s : t) : t :=
  mk (address s) (port s) (state s) (socket s) (worker s) (timer s)
     (starting s) (S (fresh s)) (now s) (log s).

Definition socketUrl (s : t) : string :=
  "ws://" +:+ address s +:+ ":" +:+ toString (port s)
  +:+ "/debugger-proxy?role=debugger".

Definition owed (w : nat) (l : list (nat * option Json)) : option (option Json) :=
  snd <$> List.find (fun p => Nat.eqb (fst p) w) l.

Definition settle (w : nat) (l : list (nat * option Json)) : list (nat * option Json) :=
  List.filter (fun p => negb (Nat.eqb (fst p) w)) l.

Section Manager.

(** The proxy-reachability check, by the time it is asked. *)
Variable isRunning : nat -> bool.

(** Modelled from the spec: [start()] of the connection supervisor
    ([MultipleLifetimesAppWorker] in the test suite), whose source file is
    missing.  An unreachable proxy fails the call with the port-specific
    error and no socket operation; otherwise a socket is opened, unless one
    exists already. *)
Definition start (s : t) : t :=
  if isRunning (now s)
  then match socket s with
       | Some _ => s
       | None =>
           take_fresh (set_state Connecting (set_socket (Some (fresh s))
             (act (ASocketOpen (socketUrl s)) s)))
       end
  else
    let s1 := act (AStartFailed (mkError KRangeError (cannotAttachText (port s)))) s in
    match socket s with
    | Some _ => s1
    | None => set_state Disconnected s1
    end.

(** Modelled from the spec: [stop()] cancels the pending timer, stops the
    active worker and closes the socket. *)
Definition stop (s : t) : t :=
  let s1 := match timer s with
            | Some _ => set_timer None (act ATimerCancel s)
            | None => s
            end in
  let s2 := match worker s1 with
            | Some w => set_worker None (act (AWorkerStop w) s1)
            | None => s1
            end in
  let s3 := match socket s2 with
            | Some _ => set_socket None (act ASocketClose s2)
            | None => s2
            end in
  set_state Disconnected s3.

(** Modelled from the spec: a [prepareJSRuntime] message stops and discards
    the previous worker, creates the next one and calls its [start()]; the
    reply is owed until that promise settles. *)
Definition prepareJSRuntime (msg : Message) (s : t) : t :=
  let s1 := match worker s with
            | Some v => set_worker None (act (AWorkerStop v) s)
            | None => s
            end in
  let w := fresh s1 in
  let s2 := take_fresh (set_worker (Some w) (act (AWorkerCreate w) s1)) in
  set_starting (starting s2 ++ [(w, msg !! "id")]) (act (AWorkerStart w) s2).

(** Modelled from the spec: the message handler of the socket. *)
Definition onMessage (m : option Message) (s : t) : t :=
  match socket s with
  | None => s
  | Some _ =>
      match m with
      | None => act ADropped s
      | Some msg =>
          if bool_decide (msg !! "method" = Some (JStr "prepareJSRuntime"))
          then prepareJSRuntime msg s
          else match worker s with
               | Some w => act (AWorkerPost w msg) s
               | None => s
               end
      end
  end.

(** Modelled from the spec: the continuation of [w.start()], run when the
    promise settles.  A worker that failed to start is not left registered
    as active; the reply owed for it is sent. *)
Definition onWorkerStarted (w : nat) (ok : bool) (s : t) : t :=
  match owed w (starting s) with
  | None => s
  | Some id =>
      let s1 := set_starting (settle w (starting s)) s in
      let s2 := if negb ok && bool_decide (worker s1 = Some w)
                then set_worker None (act (AWorkerDrop w) s1)
                else s1 in
      act (AReply w id) s2
  end.

(** Modelled from the spec: the close handler of the socket.  No reconnect
    when the reason says another debugger is attached: none is scheduled,
    and one still pending from an earlier close is cancelled.  Otherwise one
    reconnect, due 100 ms after the close. *)
Definition onClose (reason : string) (s : t) : t :=
  match socket s with
  | None => s
  | Some _ =>
      let s1 := set_socket None s in
      if includes ANOTHER_DEBUGGER reason
      then set_state Disconnected
             match timer s1 with
             | Some _ => set_timer None (act ATimerCancel s1)
             | None => s1
             end
      else set_state Reconnecting
             (set_timer (Some (now s1 + RECONNECT_DELAY)%nat)
                (act (ATimerSet (now s1 + RECONNECT_DELAY)%nat) s1))
  end.

(** Modelled from the spec: the open handler of the socket. *)
Definition onOpen (s : t) : t :=
  match socket s with
  | None => s
  | Some _ => set_state Connected s
  end.

(** Modelled from the spec: time passes.  A reconnect that falls due fires
    at its deadline as a fresh [start()]. *)
Definition elapse (ms : nat) (s : t) : t :=
  let target := (now s + ms)%nat in
  match timer s with
  | Some d =>
      if (d <=? target)%nat
      then set_now target
             (start (act AReconnect (set_timer None (set_now (Nat.max (now s) d) s))))
      else set_now target s
  | None => set_now target s
  end.

(** Modelled from the spec: one event at a time, each handled to its end. *)
Definition step (s : t) (e : Event) : t :=
  match e with
  | Start => start s
  | Stop => stop s
  | SocketOpened => onOpen s
  | SocketMessage m => onMessage m s
  | SocketClosed reason => onClose reason s
  | SocketError => s
  | WorkerStarted w ok => onWorkerStarted w ok s
  | Elapse ms => elapse ms s
  end.

Definition run (s : t) (evs : list Event) : t := fold_left step evs s.

End Manager.

(** The workers alive after an action, given those alive before it. *)
Definition after (live : list nat) (a : Action) : list nat :=
  match a with
  | AWorkerCreate w => live ++ [w]
  | AWorkerStop w | AWorkerDrop w => List.filter (fun v => negb (Nat.eqb v w)) live
  | _ => live
  end.

Definition live_from (live : list nat) (l : list (nat * Action)) : list nat :=
  fold_left (fun acc p => after acc (snd p)) l live.

Definition live (l : list (nat * Action)) : list nat := live_from [] l.


Definition is_socket_open (p : nat * Action) : bool :=
  match snd p with ASocketOpen _ => true | _ => false end.

Definition is_reply_for (w : nat) (p : nat * Action) : bool :=
  match snd p with AReply v _ => Nat.eqb v w | _ => false end.


(** *** Invariants of the manager, and what they are stated with *)

Definition olist (o : option nat) : list nat :=
  match o with Some w => [w] | None => [] end.

(** A log is safe from [cur] when at most one worker is alive at every
    point of it and nobody is alive when a worker is created. *)
Fixpoint safe_from (cur : list nat) (l : list (nat * Action)) : Prop :=
  (length cur <= 1)%nat /\
  match l with
  | [] => True
  | p :: r =>
      (forall w, snd p = AWorkerCreate w -> cur = []) /\
      safe_from (after cur (snd p)) r
  end.

(** Actions that neither create nor end a worker. *)
Definition neutral (a : Action) : bool :=
  match a with
  | AWorkerCreate _ | AWorkerStop _ | AWorkerDrop _ => false
  | _ => true
  end.

Definition Inv (l : list (nat * Action)) (o : option nat) : Prop :=
  safe_from [] l /\ live l = olist o.

(** Worker numbers handed out so far are below [fresh]. *)
Definition Fresh (s : t) : Prop :=
  (forall p, In p (starting s) -> (fst p < fresh s)%nat)
  /\ (forall p, In p (log s) -> forall v, is_reply_for v p = true -> (v < fresh s)%nat).

(** The reply for [w] is owed and was never sent. *)
Definition Owed (w : nat) (id : option Json) (s : t) : Prop :=
  owed w (starting s) = Some id
  /\ List.filter (is_reply_for w) (log s) = []
  /\ (w < fresh s)%nat.

(** The reply for [w] was sent, once, and is owed no more. *)
Definition Replied (w : nat) (r : nat * Action) (s : t) : Prop :=
  owed w (starting s) = None
  /\ List.filter (is_reply_for w) (log s) = [r]
  /\ (w < fresh s)%nat.

(** The part of the state the reply depends on, and how a handler that
    sends nothing leaves it. *)
Definition silent (w : nat) (s s' : t) : Prop :=
  starting s' = starting s
  /\ (fresh s <= fresh s')%nat
  /\ List.filter (is_reply_for w) (log s') = List.filter (is_reply_for w) (log s).









End ConnectionManager.

(* ===================================================================== *)
(** ** Concrete collaborators, to run the model                           *)
(* ===================================================================== *)

Module Fixture.

(** The text before the first character satisfying [p], and the text from
    that character on. *)
Fixpoint break (p : ascii -> bool) (s : string) : string * string :=
  match s with
  | EmptyString => (EmptyString, EmptyString)
  | String c s' =>
      if p c then (EmptyString, s)
      else let '(a, b) := break p s' in (String c a, b)
  end.

Definition some_if_truthy (s : string) : option string :=
  if truthy (Some s) then Some s else None.

(** [url.parse] on URLs of the shape
    [scheme://hostname[:port][/path][?search][#hash]], and on bare paths. *)
Definition simple_parse (s : string) : Url :=
  match String.index 0 "://" s with
  | Some i =>
      let scheme := String.substring 0 i s in
      let rest := String.substring (i + 3) (String.length s - (i + 3)) s in
      let '(authority, tail) :=
        break (fun c => Ascii.eqb c "/" || Ascii.eqb c "?" || Ascii.eqb c "#") rest in
      let '(hn, colon_port) := break (fun c => Ascii.eqb c ":") authority in
      let prt := match colon_port with String _ p => some_if_truthy p | _ => None end in
      let '(path, query_hash) :=
        break (fun c => Ascii.eqb c "?" || Ascii.eqb c "#") tail in
      let '(query, hsh) := break (fun c => Ascii.eqb c "#") query_hash in
      mkUrl (Some (scheme +:+ ":")) true None (some_if_truthy authority) prt
            (some_if_truthy hn) (some_if_truthy hsh) (some_if_truthy query)
            (if truthy (Some path) then path else "/") s
  | None =>
      let '(path, query_hash) :=
        break (fun c => Ascii.eqb c "?" || Ascii.eqb c "#") s in
      let '(query, hsh) := break (fun c => Ascii.eqb c "#") query_hash in
      mkUrl None false None None None None (some_if_truthy hsh)
            (some_if_truthy query) path s
  end.

(** [path.basename]: the text after the last [/]. *)
Fixpoint basename_from (acc s : string) : string :=
  match s with
  | EmptyString => acc
  | String c s' =>
      if Ascii.eqb c "/" then basename_from s' s' else basename_from acc s'
  end.

Definition basename (s : string) : string := basename_from s s.

Definition join (dir file : string) : string := dir +:+ "/" +:+ file.

(** A bundle refers to a source map when it says so in its last line. *)
Definition sourceMapOf (scriptUrl : Url) (body : string) : option Url :=
  if includes "//# sourceMappingURL=" body
  then Some (simple_parse "http://localhost:8081/index.map")
  else None.

#[export] Instance collaborators : Collaborators := {|
  url_parse := simple_parse;
  path_join := join;
  path_basename := basename;
  getSourceMapURL := sourceMapOf;
  updateScriptPaths := fun body _ => body;
  updateSourceMapFile := fun body _ _ => body;
  getHostForPort := fun p => "localhost:" +:+ toString p
|}.

(** A server with one resource at [u], validated by entity tag. *)
Definition etag_server (u tag content : string) (r : HttpRequest) : HttpOutcome :=
  if bool_decide (req_url r = u) then
    if bool_decide (req_headers r !! "If-None-Match" = Some tag)
    then Responded (mkResponse 304 (Some {[ "etag" := tag ]}) "")
    else Responded (mkResponse 200 (Some {[ "etag" := tag ]}) content)
  else Responded (mkResponse 404 (Some ∅) "Not found").

(** The same server when it sends no [ETag] header with a 304. *)
Definition silent_server (u tag content : string) (r : HttpRequest) : HttpOutcome :=
  if bool_decide (req_url r = u) then
    if bool_decide (req_headers r !! "If-None-Match" = Some tag)
    then Responded (mkResponse 304 (Some ∅) "")
    else Responded (mkResponse 200 (Some {[ "etag" := tag ]}) content)
  else Responded (mkResponse 404 (Some ∅) "Not found").

Definition bundleUrl : string := "http://localhost:8081/index.bundle".

Definition world (net : HttpRequest -> HttpOutcome) (up : bool) : World :=
  mkWorld ∅ net (fun _ => up) [] [].

Definition importer : ScriptImporter.t :=
  ScriptImporter.mk 8081 None "/tmp/rn".

End Fixture.

(** Worlds, importers and messages to run the model on. *)
Module Runs.
Import Fixture Request ScriptImporter.

Definition server : HttpRequest -> HttpOutcome := etag_server bundleUrl "v1" "code".

(** An empty cache, and an importer that remembers a stale ETag. *)
Definition cold : World := world server true.
Definition stale : ScriptImporter.t := ScriptImporter.mk 8081 (Some "v0") "/tmp/rn".

(** The state after a first download. *)
Definition warm : World := snd (downloadAppScript importer bundleUrl cold).
Definition warmed : ScriptImporter.t := snd (fst (downloadAppScript importer bundleUrl cold)).

(** A cached bundle behind a server that answers 304 without an [ETag]. *)
Definition mute : World :=
  mkWorld {[ "/tmp/rn/index.bundle" := "code" ]}
          (silent_server bundleUrl "v1" "code") (fun _ => true) [] [].
Definition tagged : ScriptImporter.t := ScriptImporter.mk 8081 (Some "v1") "/tmp/rn".

(** The worker and the message of the test suite. *)
Definition remote : World :=
  world (etag_server "http://1.2.3.4:1337/test-url" "v1" "code") true.
Definition worker : SandboxWorker.t := SandboxWorker.create "1.2.3.4" 1337 "/home/test".
Definition fakeMessage : Message :=
  {[ "method" := JStr "executeApplicationScript";
     "url" := JStr "http://localhost:8081/test-url" ]}.

Definition prepare (id : Z) : Message :=
  {[ "method" := JStr "prepareJSRuntime"; "id" := JNum id ]}.

Definition up : nat -> bool := fun _ => true.
Definition connected : ConnectionManager.t :=
  ConnectionManager.run up (ConnectionManager.init "localhost" 8081)
    [ConnectionManager.Start; ConnectionManager.SocketOpened].



(** A bundle the server of [cold] does not have. *)
Definition missingUrl : string := "http://localhost:8081/missing.bundle".

(** A cached bundle behind a server that answers every request with a 304
    carrying the entity tag [v2]. *)
Definition retagged : World :=
  mkWorld {[ "/tmp/rn/index.bundle" := "code" ]}
          (fun _ => Responded (mkResponse 304 (Some {[ "etag" := "v2" ]}) ""))
          (fun _ => true) [] [].

(** A cached bundle behind a server that answers without any headers. *)
Definition headless : World :=
  mkWorld {[ "/tmp/rn/index.bundle" := "code" ]}
          (fun _ => Responded (mkResponse 200 None "code"))
          (fun _ => true) [] [].

End Runs.

(** A packager that serves a bundle referring to its source map, and the
    map. *)
Module MoreRuns.
Import Fixture.

Definition mappedBody : string := "var a = 1;//# sourceMappingURL=index.map".

Definition mapUrl : string := "http://localhost:8081/index.map".

Definition mapped_server (r : HttpRequest) : HttpOutcome :=
  if bool_decide (req_url r = bundleUrl)
  then Responded (mkResponse 200 (Some {[ "etag" := "v1" ]}) mappedBody)
  else if bool_decide (req_url r = mapUrl)
  then Responded (mkResponse 200 (Some ∅) "{}")
  else Responded (mkResponse 404 (Some ∅) "Not found").

Definition mapped : World := world mapped_server true.

(** A cached bundle, and a server that has lost it. *)
Definition gone : World :=
  mkWorld {[ "/tmp/rn/index.bundle" := "code" ]}
          (fun _ => Responded (mkResponse 404 (Some ∅) "Not found"))
          (fun _ => true) [] [].

(** An empty cache in front of a server that answers 304 to everything. *)
Definition unchanged : World :=
  world (fun _ => Responded (mkResponse 304 (Some ∅) "")) true.

(** Two cached bundles behind the validating server of the first. *)
Definition twoCached : World :=
  mkWorld {[ "/tmp/rn/index.bundle" := "code"; "/tmp/rn/other.bundle" := "other" ]}
          (etag_server bundleUrl "v1" "code") (fun _ => true) [] [].

End MoreRuns.

(* ===================================================================== *)
(** ** App Center commands  ([AppCenterCommandPalleteHandler])            *)
(* ===================================================================== *)

Module AppCenter.

(** [enum AppCenterCommandType].  The enum is numeric, so that [run] can
    be handed its five members, numbered 0 to 4 in the order of their
    declaration, and any other number as well: [Unlisted n] is the number
    [n + 5] when [n] is not negative and the number [n] when it is. *)
Inductive AppCenterCommandType :=
| Login
| Logout
| Whoami
| SetCurrentApp
| CodePushDeploymentList
| Unlisted (n : Z).

(** The number a command is at run time. *)
Definition number (command : AppCenterCommandType) : Z :=
  match command with
  | Login => 0
  | Logout => 1
  | Whoami => 2
  | SetCurrentApp => 3
  | CodePushDeploymentList => 4
  | Unlisted n => if 0 <=? n then n + 5 else n
  end.

(** What the handler asks of its collaborators, in order.  Clients, user
    profiles and extension managers are opaque to the handler and are named
    by numbers. *)
Inductive Call :=
| CIsAuthenticated                                 (* [Auth.isAuthenticated()] *)
| CGetUser                                         (* [getUser()] *)
| CFromProfile (user : nat) (endpoint : string)    (* [clientFactory.fromProfile] *)
| CShowInformationMessage (msg : string)
| CLogError (msg : string)                         (* [logger.log(msg, LogLevel.Error)] *)
| CLogin (manager : nat)
| CLogout (client manager : nat)
| CWhoAmI (client : nat)
| CCodePushDeploymentList (client : nat)
| CSetCurrentApp.

(** The collaborators, as they answer during one [run]. *)
Record Env := mkEnv {
  isAuthenticated : Settled bool;
  getUser         : option nat;
  endpoint        : string;               (* [SettingsHelper.getAppCenterAPIEndpoint()] *)
  fromProfile     : nat -> string -> option nat;
  execute         : Call -> Settled unit  (* the promise of a command executor method *)
}.

(** The handler: its cached client ([undefined] at first). *)
Record t := mk { client : option nat }.

(** A [throw] inside the [then] callback rejects the promise of [run]:
    the result is the client (or [null]), or the error thrown. *)
Definition resolveAppCenterClient (env : Env) (this : t)
    : Settled (option nat) * list Call :=
  match client this with
  | None =>
      match getUser env with
      | Some user =>
          (Fulfilled (fromProfile env user (endpoint env)),
           [CGetUser; CFromProfile user (endpoint env)])
      | None =>
          (Rejected (mkError KError "No App Center user specified"), [CGetUser])
      end
  | Some c => (Fulfilled (Some c), [])
  end.

Definition run (env : Env) (this : t) (command : AppCenterCommandType)
    (appCenterManager : nat) : Settled unit * t * list Call :=
  match command with
  | Login =>
      (* Login is special case *)
      (execute env (CLogin appCenterManager), this, [CLogin appCenterManager])
  | _ =>
      match isAuthenticated env with
      | Rejected e => (Rejected e, this, [CIsAuthenticated])
      | Fulfilled false =>
          (Fulfilled tt, this,
           [CIsAuthenticated;
            CShowInformationMessage "You are not logged in to AppCenter"])
      | Fulfilled true =>
          let '(clientOrNull, calls) := resolveAppCenterClient env this in
          match clientOrNull with
          | Rejected e => (Rejected e, this, CIsAuthenticated :: calls)
          | Fulfilled None =>
              (Rejected (mkError KError "Failed to get App Center client!"), this,
               CIsAuthenticated :: calls
               ++ [CLogError "Failed to get App Center client"])
          | Fulfilled (Some c) =>
              let this' := mk (Some c) in
              match command with
              | Logout =>
                  (execute env (CLogout c appCenterManager), this',
                   CIsAuthenticated :: calls ++ [CLogout c appCenterManager])
              | Whoami =>
                  (execute env (CWhoAmI c), this',
                   CIsAuthenticated :: calls ++ [CWhoAmI c])
              | CodePushDeploymentList =>
                  (execute env (CCodePushDeploymentList c), this',
                   CIsAuthenticated :: calls ++ [CCodePushDeploymentList c])
              | SetCurrentApp =>
                  (execute env CSetCurrentApp, this',
                   CIsAuthenticated :: calls ++ [CSetCurrentApp])
              | Login | Unlisted _ =>
                  (* the [default] of the [switch] *)
                  (Rejected (mkError KError "Unknown App Center command!"), this',
                   CIsAuthenticated :: calls)
              end
          end
      end
  end.

(** Commands run one after the other, each with the collaborators'
    answers of its moment. *)
Fixpoint runs (this : t) (l : list (Env * AppCenterCommandType * nat))
    : t * list Call :=
  match l with
  | [] => (this, [])
  | (env, command, manager) :: l' =>
      let '(_, this', calls) := run env this command manager in
      let '(this'', calls') := runs this' l' in
      (this'', calls ++ calls')
  end.

(** The calls that execute a command. *)
Definition is_executor (c : Call) : bool :=
  match c with
  | CLogin _ | CLogout _ _ | CWhoAmI _ | CCodePushDeploymentList _
  | CSetCurrentApp => true
  | _ => false
  end.

(** The client a call hands to the executor. *)
Definition client_of (c : Call) : option nat :=
  match c with
  | CLogout k _ | CWhoAmI k | CCodePushDeploymentList k => Some k
  | _ => None
  end.

(** The calls that look for a client. *)
Definition is_lookup (c : Call) : bool :=
  match c with
  | CGetUser | CFromProfile _ _ => true
  | _ => false
  end.

(** A handler without a client, and collaborators of a logged-in user
    whose executors all succeed. *)
Definition fresh : t := mk None.

Definition loggedIn : Env :=
  mkEnv (Fulfilled true) (Some 7%nat) "https://api.appcenter.ms"
        (fun user _ => Some (user + 1)%nat) (fun _ => Fulfilled tt).

Definition loggedOut : Env :=
  mkEnv (Fulfilled false) None "https://api.appcenter.ms"
        (fun _ _ => None) (fun _ => Fulfilled tt).

Definition noProfile : Env :=
  mkEnv (Fulfilled true) None "https://api.appcenter.ms"
        (fun _ _ => None) (fun _ => Fulfilled tt).

End AppCenter.

(* ===================================================================== *)
(** * Properties                                                          *)
(* ===================================================================== *)

(** ** Strings *)

Lemma contains_middle (a b c : string) : contains b (a +:+ b +:+ c).
Proof. exists a, c. reflexivity. Qed.

(** ** Traces *)

Lemma since_app (w w' : World) (l : list Effect) :
  trace w' = trace w ++ l -> since w w' = l.
Proof. intros E. unfold since. rewrite E. apply drop_app_length. Qed.

Lemma since_emit (w : World) (e : Effect) : since w (emit e w) = [e].
Proof. apply since_app. reflexivity. Qed.

(** ** [Request] *)

Module RequestFacts.
Import Request.




Lemma etag_request_falsy (u : string) (e : option string) :
  truthy e = false -> etag_request u e = mkRequest u ∅.
Proof. unfold etag_request. intros ->. reflexivity. Qed.




End RequestFacts.

Section RequestContract.
Import Request RequestFacts.


End RequestContract.

(** ** [ScriptImporter] *)

Module ImporterFacts.
Section Facts.
Import Request RequestFacts ScriptImporter.

Context `{Collaborators}.

Lemma overridden_set_etag (e : option string) (this : t) (u : string) :
  overriddenScriptUrlString (set_etag e this) u = overriddenScriptUrlString this u.
Proof. reflexivity. Qed.

Lemma scriptFilePath_set_etag (e : option string) (this : t) (u : string) :
  scriptFilePath (set_etag e this) u = scriptFilePath this u.
Proof. reflexivity. Qed.

Lemma primed_overridden (this : t) (u u' : string) (w : World) :
  overriddenScriptUrlString (primed this u w) u' = overriddenScriptUrlString this u'.
Proof. unfold primed. destruct (FileSystem.existsSync _ _); reflexivity. Qed.

Lemma primed_scriptFilePath (this : t) (u u' : string) (w : World) :
  scriptFilePath (primed this u w) u' = scriptFilePath this u'.
Proof. unfold primed. destruct (FileSystem.existsSync _ _); reflexivity. Qed.

Lemma primed_missing (this : t) (u : string) (w : World) :
  FileSystem.existsSync (scriptFilePath this u) w = false ->
  appScriptEtag (primed this u w) = None.
Proof. unfold primed. intros ->. reflexivity. Qed.

Lemma primed_cached (this : t) (u : string) (w : World) :
  FileSystem.existsSync (scriptFilePath this u) w = true ->
  primed this u w = this.
Proof. unfold primed. intros ->. reflexivity. Qed.

(** The call fails when the GET fails. *)
Lemma downloadAppScript_error (this : t) (u : string) (w : World) (e : Error) :
  net w (bundleRequest this u w) = NetError e ->
  downloadAppScript this u w
  = (Rejected e, primed this u w, emit (EHttpGet (bundleRequest this u w)) w).
Proof.
  intros Hnet. unfold downloadAppScript, requestWithEtag, http_get.
  fold (scriptFilePath this u). fold (primed this u w).
  fold (bundleRequest this u w). rewrite Hnet.
  reflexivity.
Qed.

(** ... or is answered by a status other than 200 and 304. *)
Lemma downloadAppScript_bad (this : t) (u : string) (w : World) (res : HttpResponse) :
  net w (bundleRequest this u w) = Responded res ->
  statusCode res <> 200 -> statusCode res <> 304 ->
  downloadAppScript this u w
  = (Rejected (mkError KError (res_body res)), primed this u w,
     emit (EHttpGet (bundleRequest this u w)) w).
Proof.
  intros Hnet H2 H3. unfold downloadAppScript, requestWithEtag, http_get.
  fold (scriptFilePath this u). fold (primed this u w).
  fold (bundleRequest this u w). rewrite Hnet.
  apply Z.eqb_neq in H2, H3. rewrite H2, H3. reflexivity.
Qed.

(** A 304 returns the cache path at once. *)
Lemma downloadAppScript_304 (this : t) (u : string) (w : World) (res : HttpResponse) :
  net w (bundleRequest this u w) = Responded res ->
  statusCode res = 304 ->
  downloadAppScript this u w
  = (Fulfilled (scriptFilePath this u),
     set_etag (response_etag res) (primed this u w),
     emit (EHttpGet (bundleRequest this u w)) w).
Proof.
  intros Hnet H3. unfold downloadAppScript, requestWithEtag, http_get.
  fold (scriptFilePath this u). fold (primed this u w).
  fold (bundleRequest this u w). rewrite Hnet, H3.
  reflexivity.
Qed.

(** A 200 stores the body, after the source map download was started when
    the body refers to one. *)
Lemma downloadAppScript_200 (this : t) (u : string) (w : World) (res : HttpResponse) :
  net w (bundleRequest this u w) = Responded res ->
  statusCode res = 200 ->
  exists w2,
    downloadAppScript this u w
    = (Fulfilled (scriptFilePath this u),
       set_etag (response_etag res) (primed this u w),
       emit (ELog ("Script " +:+ overriddenScriptUrlString this u
                   +:+ " downloaded to " +:+ scriptFilePath this u))
         (FileSystem.writeFile (scriptFilePath this u)
            (storedBody this u (res_body res)) w2))
    /\ files w2 = files w
    /\ writes (since w w2) = []
    /\ exists rest, trace w2 = trace w ++ EHttpGet (bundleRequest this u w) :: rest
                    /\ Forall (fun e => is_get e = true) rest.
Proof.
  intros Hnet H2. unfold downloadAppScript, requestWithEtag, http_get.
  fold (scriptFilePath this u). fold (primed this u w).
  fold (bundleRequest this u w). rewrite Hnet, H2.
  cbn [negb andb Z.eqb Pos.eqb fst snd code body etag].
  unfold storedBody.
  destruct (getSourceMapURL (url_parse (overriddenScriptUrlString this u))
                            (res_body res)) as [sm|].
  - eexists. split; [reflexivity|].
    unfold writeAppSourceMap, http_get, defer, emit. cbn.
    split; [reflexivity|]. split.
    + erewrite since_app; [|cbn; rewrite <- app_assoc; reflexivity]. reflexivity.
    + eexists. rewrite <- app_assoc. split; [reflexivity|].
      repeat constructor.
  - eexists. split; [reflexivity|]. cbn.
    split; [reflexivity|]. split.
    + erewrite since_app; [|cbn; reflexivity]. reflexivity.
    + exists []. split; [reflexivity | constructor].
Qed.

End Facts.
End ImporterFacts.

(** ** Numbers as text *)

Lemma pretty_N_go_length (x : N) (s : string) :
  (String.length s <= String.length (pretty_N_go x s))%nat.
Proof.
  revert s. induction (N.lt_wf_0 x) as [x _ IH]; intros s.
  destruct (decide (x = 0)%N) as [->|Hx].
  - rewrite pretty_N_go_0. lia.
  - rewrite pretty_N_go_step by lia.
    etrans; [|apply IH, N.div_lt; lia]. simpl. lia.
Qed.

Lemma pretty_N_nonempty (x : N) : pretty x <> "".
Proof.
  unfold pretty, pretty_N. destruct (decide (x = 0)%N) as [->|Hx]; [discriminate|].
  rewrite pretty_N_go_step by lia. intros E.
  pose proof (pretty_N_go_length (x `div` 10)
                (String (pretty_N_char (x `mod` 10)) "")) as L.
  rewrite E in L. simpl in L. lia.
Qed.

Lemma toString_nonempty (n : Z) : toString n <> "".
Proof.
  unfold toString, pretty, pretty_Z. destruct n as [|p|p].
  - discriminate.
  - apply (pretty_N_nonempty (Npos p)).
  - discriminate.
Qed.

Lemma toString_truthy (n : Z) : truthy (Some (toString n)) = true.
Proof.
  pose proof (toString_nonempty n) as Hn.
  destruct (toString n); [congruence | reflexivity].
Qed.

(** ** The claims on [ScriptImporter] *)

Module ImporterClaims.
Section Claims.
Import Request RequestFacts ScriptImporter ImporterFacts.

Context `{Collaborators}.

(** A fulfilled download was answered by a 200 or a 304; its result is the
    cache path and the importer remembers the ETag of the answer. *)
Lemma downloadAppScript_fulfilled (this : t) (u : string) (w : World)
    (p : string) (this' : t) (w' : World) :
  downloadAppScript this u w = (Fulfilled p, this', w') ->
  p = scriptFilePath this u
  /\ exists res,
       net w (bundleRequest this u w) = Responded res
       /\ (statusCode res = 200 \/ statusCode res = 304)
       /\ this' = set_etag (response_etag res) (primed this u w).
Proof.
  intros E. destruct (net w (bundleRequest this u w)) as [e|res] eqn:Hnet.
  - rewrite (downloadAppScript_error _ _ _ _ Hnet) in E. discriminate E.
  - destruct (decide (statusCode res = 304)) as [H3|H3].
    + rewrite (downloadAppScript_304 _ _ _ _ Hnet H3) in E.
      injection E as <- <- <-. split; [reflexivity|]. exists res. auto.
    + destruct (decide (statusCode res = 200)) as [H2|H2].
      * destruct (downloadAppScript_200 _ _ _ _ Hnet H2) as (w2 & E2 & _).
        rewrite E2 in E. injection E as <- <- <-.
        split; [reflexivity|]. exists res. auto.
      * rewrite (downloadAppScript_bad _ _ _ _ Hnet H2 H3) in E. discriminate E.
Qed.

(** Whatever the answer, the first effect of a download is its GET. *)
Lemma downloadAppScript_first_effect (this : t) (u : string) (w : World) :
  exists rest,
    since w (snd (downloadAppScript this u w))
    = EHttpGet (bundleRequest this u w) :: rest.
Proof.
  destruct (net w (bundleRequest this u w)) as [e|res] eqn:Hnet.
  - rewrite (downloadAppScript_error _ _ _ _ Hnet). exists []. apply since_emit.
  - destruct (decide (statusCode res = 304)) as [H3|H3].
    + rewrite (downloadAppScript_304 _ _ _ _ Hnet H3). exists []. apply since_emit.
    + destruct (decide (statusCode res = 200)) as [H2|H2].
      * destruct (downloadAppScript_200 _ _ _ _ Hnet H2) as (w2 & -> & _ & _ & rest & T & _).
        eexists. apply since_app. cbn. rewrite T, <- !app_assoc. reflexivity.
      * rewrite (downloadAppScript_bad _ _ _ _ Hnet H2 H3). exists []. apply since_emit.
Qed.

(** C5.  Two consecutive [downloadAppScript] calls with the same URL: when
    the cached file exists after the first call and the second request is
    answered by a 304, the second call returns the same local path as the
    first, issues only its conditional GET and writes no file. *)
Theorem downloadAppScript_unchanged_no_write (this : t) (u : string) (w : World)
    (p1 : string) (this1 : t) (w1 : World) (res : HttpResponse) :
  downloadAppScript this u w = (Fulfilled p1, this1, w1) ->
  FileSystem.existsSync p1 w1 = true ->
  net w1 (etag_request (overriddenScriptUrlString this u) (appScriptEtag this1))
    = Responded res ->
  statusCode res = 304 ->
  exists this2 w2,
    downloadAppScript this1 u w1 = (Fulfilled p1, this2, w2)
    /\ since w1 w2
       = [EHttpGet (etag_request (overriddenScriptUrlString this u)
                                 (appScriptEtag this1))]
    /\ writes (since w1 w2) = []
    /\ files w2 = files w1.
Proof.
  intros E1 Hfile Hnet H304.
  destruct (downloadAppScript_fulfilled _ _ _ _ _ _ E1) as (-> & res1 & _ & _ & ->).
  set (this1 := set_etag (response_etag res1) (primed this u w)) in *.
  assert (Hov : overriddenScriptUrlString this1 u = overriddenScriptUrlString this u).
  { unfold this1. rewrite overridden_set_etag. apply primed_overridden. }
  assert (Hpath : scriptFilePath this1 u = scriptFilePath this u).
  { unfold this1. rewrite scriptFilePath_set_etag. apply primed_scriptFilePath. }
  assert (Hreq : bundleRequest this1 u w1
                 = etag_request (overriddenScriptUrlString this u) (appScriptEtag this1)).
  { unfold bundleRequest. rewrite Hov, primed_cached; [reflexivity|].
    rewrite Hpath. exact Hfile. }
  rewrite <- Hreq in Hnet.
  rewrite (downloadAppScript_304 _ _ _ _ Hnet H304), Hpath, Hreq.
  eexists _, _. split; [reflexivity|].
  rewrite since_emit. repeat split; reflexivity.
Qed.

(** C6.  When no file exists at the cache path, the remembered ETag is
    dropped before the request: the GET goes out without any header, hence
    without [If-None-Match].  When that GET is answered in full (status
    200), [fs.writeFile] is called once, with the cache path and the body
    received (its source map reference made local when it has one).  On
    every other answer nothing is written and no file changes: a 304 is
    taken to mean that the cache is current, and any other status, like a
    connection error, rejects the call; after a connection error the ETag
    stays forgotten. *)
Theorem downloadAppScript_missing_file_fetches (this : t) (u : string) (w : World) :
  FileSystem.existsSync (scriptFilePath this u) w = false ->
  let ov := overriddenScriptUrlString this u in
  let out := downloadAppScript this u w in
  (exists rest, since w (snd out) = EHttpGet (mkRequest ov ∅) :: rest)
  /\ (forall res,
        net w (mkRequest ov ∅) = Responded res -> statusCode res = 200 ->
        writes (since w (snd out))
        = [EWriteFile (scriptFilePath this u) (storedBody this u (res_body res))])
  /\ (forall res,
        net w (mkRequest ov ∅) = Responded res -> statusCode res <> 200 ->
        writes (since w (snd out)) = [] /\ files (snd out) = files w)
  /\ (forall e,
        net w (mkRequest ov ∅) = NetError e ->
        fst out = (Rejected e, set_etag None this)
        /\ writes (since w (snd out)) = [] /\ files (snd out) = files w).
Proof.
  intros Hmissing ov out.
  assert (Hreq : bundleRequest this u w = mkRequest ov ∅).
  { unfold bundleRequest. rewrite (primed_missing _ _ _ Hmissing). reflexivity. }
  split; [|split; [|split]].
  - rewrite <- Hreq. apply downloadAppScript_first_effect.
  - intros res Hnet H200. rewrite <- Hreq in Hnet.
    destruct (downloadAppScript_200 _ _ _ _ Hnet H200)
      as (w2 & E & Hfiles & Hwrites & rest & T & _).
    subst out. rewrite E. cbn [fst snd].
    assert (T2 : trace w2 = trace w ++ since w w2) by (rewrite T; f_equal; symmetry; apply since_app, T).
    erewrite since_app; [|cbn; rewrite T2, <- !app_assoc; reflexivity].
    unfold writes in *. rewrite !List.filter_app, Hwrites. reflexivity.
  - intros res Hnet H200. rewrite <- Hreq in Hnet. subst out.
    destruct (decide (statusCode res = 304)) as [H3|H3].
    + rewrite (downloadAppScript_304 _ _ _ _ Hnet H3). cbn [snd].
      rewrite since_emit. split; reflexivity.
    + rewrite (downloadAppScript_bad _ _ _ _ Hnet H200 H3). cbn [snd].
      rewrite since_emit. split; reflexivity.
  - intros e Hnet. rewrite <- Hreq in Hnet. subst out.
    rewrite (downloadAppScript_error _ _ _ _ Hnet). cbn [fst snd].
    rewrite since_emit. unfold primed. rewrite Hmissing.
    repeat split; reflexivity.
Qed.

(** C7.  The URL [downloadAppScript] fetches: for a URL whose hostname is
    ["localhost"] it is the formatted input with its port set to the
    configured packager port and its [host] field deleted, so that the host
    part written is [localhost:<port>] (with [host] left in place the new
    port would be ignored); any other URL is fetched as given. *)
Theorem downloadAppScript_fetch_url (this : t) (u : string) (w : World) :
  let ov := overriddenScriptUrlString this u in
  let p := toString (packagerPort this) in
  (exists hs rest,
     since w (snd (downloadAppScript this u w)) = EHttpGet (mkRequest ov hs) :: rest)
  /\ (hostname (url_parse u) = Some "localhost" ->
      ov = url_format (delete_host (set_port p (url_parse u)))
      /\ format_host (delete_host (set_port p (url_parse u)))
         = Some ("localhost:" +:+ p)
      /\ (truthy (host (url_parse u)) = true ->
          format_host (set_port p (url_parse u)) = host (url_parse u)))
  /\ (hostname (url_parse u) <> Some "localhost" -> ov = u).
Proof.
  intros ov p. split; [|split].
  - destruct (downloadAppScript_first_effect this u w) as (rest & E).
    exists (req_headers (bundleRequest this u w)), rest. rewrite E.
    unfold bundleRequest. f_equal. f_equal.
    unfold etag_request. fold ov. destruct (truthy _); reflexivity.
  - intros Hloc. subst ov. unfold overriddenScriptUrlString.
    rewrite bool_decide_eq_true_2 by exact Hloc.
    split; [reflexivity|]. split.
    + unfold format_host. cbn [delete_host set_port host hostname port].
      rewrite Hloc. fold p.
      pose proof (toString_nonempty (packagerPort this)) as Hp. fold p in Hp.
      destruct p as [|c p']; [congruence | reflexivity].
    + intros Hhost. unfold format_host. cbn [set_port host]. rewrite Hhost.
      destruct (host (url_parse u)) as [h|]; [reflexivity | discriminate Hhost].
  - intros Hne. subst ov. unfold overriddenScriptUrlString.
    rewrite bool_decide_eq_false_2 by exact Hne. reflexivity.
Qed.

(** C10.  A fulfilled [downloadAppScript] call was answered by a 200 or a
    304, and either way it leaves the importer remembering what that
    response carries under its [etag] header: the value of the header when
    the response has one, nothing when it has no such header or no headers
    at all.  When the response carries no ETag, the next call issues its GET
    without any header, whatever the state of the cache. *)
Theorem downloadAppScript_remembers_response_etag (this : t) (u : string) (w : World)
    (p : string) (this' : t) (w' : World) :
  downloadAppScript this u w = (Fulfilled p, this', w') ->
  exists res,
    net w (bundleRequest this u w) = Responded res
    /\ (statusCode res = 200 \/ statusCode res = 304)
    /\ (forall h, res_headers res = Some h -> appScriptEtag this' = h !! "etag")
    /\ (res_headers res = None -> appScriptEtag this' = None)
    /\ ((forall h, res_headers res = Some h -> h !! "etag" = None) ->
        appScriptEtag this' = None
        /\ forall w'', exists rest,
             since w'' (snd (downloadAppScript this' u w''))
             = EHttpGet (mkRequest (overriddenScriptUrlString this u) ∅) :: rest).
Proof.
  intros E.
  destruct (downloadAppScript_fulfilled _ _ _ _ _ _ E) as (_ & res & Hnet & Hcode & ->).
  exists res. split; [exact Hnet|]. split; [exact Hcode|].
  assert (Hset : forall o, appScriptEtag (set_etag o (primed this u w)) = o)
    by reflexivity.
  rewrite Hset. unfold response_etag.
  split; [intros h ->; reflexivity|]. split; [intros ->; reflexivity|].
  intros Habsent.
  assert (Hnone : match res_headers res with
                  | Some h => h !! "etag"
                  | None => None
                  end = None).
  { destruct (res_headers res) as [h|]; [apply Habsent|]; reflexivity. }
  split; [exact Hnone|]. intros w''.
  destruct (downloadAppScript_first_effect
              (set_etag (response_etag res) (primed this u w)) u w'') as (rest & T).
  exists rest. unfold response_etag in T. rewrite T. f_equal. f_equal.
  unfold bundleRequest. rewrite overridden_set_etag, primed_overridden.
  apply etag_request_falsy.
  unfold primed at 1. destruct (negb _); cbn [appScriptEtag set_etag]; rewrite ?Hnone; reflexivity.
Qed.

End Claims.
End ImporterClaims.

(** ** The claim on [SandboxWorker] *)

Module WorkerClaims.
Section Claims.
Import Request RequestFacts ScriptImporter ImporterFacts ImporterClaims SandboxWorker.

Context `{Collaborators}.

Lemma downloadAppScript_quiet (this : ScriptImporter.t) (u : string) (w : World) :
  exists l,
    trace (snd (downloadAppScript this u w)) = trace w ++ l /\ Forall quiet l.
Proof.
  destruct (net w (bundleRequest this u w)) as [e|res] eqn:Hnet.
  - rewrite (downloadAppScript_error _ _ _ _ Hnet). eexists. split; [reflexivity|].
    repeat constructor.
  - destruct (decide (statusCode res = 304)) as [H3|H3].
    + rewrite (downloadAppScript_304 _ _ _ _ Hnet H3). eexists. split; [reflexivity|].
      repeat constructor.
    + destruct (decide (statusCode res = 200)) as [H2|H2].
      * destruct (downloadAppScript_200 _ _ _ _ Hnet H2)
          as (w2 & -> & _ & _ & rest & T & G).
        eexists. split; [cbn; rewrite T, <- !app_assoc; reflexivity|].
        constructor; [split; reflexivity|].
        apply Forall_app. split.
        -- eapply Forall_impl; [exact G|]. intros [] He; try discriminate He.
           split; reflexivity.
        -- repeat constructor.
      * rewrite (downloadAppScript_bad _ _ _ _ Hnet H2 H3). eexists.
        split; [reflexivity|]. repeat constructor.
Qed.

Lemma filter_quiet_send (l : list Effect) :
  Forall quiet l -> List.filter is_send l = [].
Proof.
  induction 1 as [|e l [Hs _] _ IH]; [reflexivity|]. cbn. rewrite Hs. exact IH.
Qed.

Lemma filter_quiet_import (l : list Effect) :
  Forall quiet l -> List.filter is_import l = [].
Proof.
  induction 1 as [|e l [_ Hi] _ IH]; [reflexivity|]. cbn. rewrite Hi. exact IH.
Qed.

Lemma truthy_host_port (a b : string) : truthy (Some (a +:+ ":" +:+ b)) = true.
Proof. destruct a; reflexivity. Qed.

(** C2.  [postMessage] on an [executeApplicationScript] message that carries
    a bundle URL, when the download succeeds: the importer is called exactly
    once, with the URL whose host was replaced by the configured proxy
    address and port; exactly one message is forwarded to the child, whose
    [url] is the local path the download produced and whose other fields
    are those of the message received. *)
Theorem postMessage_rewrites_url (this : SandboxWorker.t) (msg : Message)
    (u : string) (w : World) (path : string) (imp : ScriptImporter.t) (w2 : World) :
  msg !! "method" = Some (JStr "executeApplicationScript") ->
  msg !! "url" = Some (JStr u) ->
  downloadAppScript (scriptImporter this) (rewrittenUrl this u)
                    (emit (EImport (rewrittenUrl this u)) w)
    = (Fulfilled path, imp, w2) ->
  let proxy := packagerAddress this +:+ ":" +:+ toString (SandboxWorker.packagerPort this) in
  exists fwd this' w',
    postMessage this msg w = (Fulfilled fwd, this', w')
    /\ List.filter is_import (since w w') = [EImport (rewrittenUrl this u)]
    /\ rewrittenUrl this u = url_format (set_host proxy (url_parse u))
    /\ format_host (set_host proxy (url_parse u)) = Some proxy
    /\ List.filter is_send (since w w') = [EChildSend fwd]
    /\ fwd !! "url" = Some (JStr path)
    /\ (forall k, k <> "url" -> fwd !! k = msg !! k).
Proof.
  intros Hmethod Hurl Hdl proxy.
  unfold postMessage. rewrite bool_decide_eq_true_2 by exact Hmethod.
  rewrite Hurl. cbv zeta. rewrite Hdl.
  eexists _, _, _. split; [reflexivity|].
  destruct (downloadAppScript_quiet (scriptImporter this) (rewrittenUrl this u)
              (emit (EImport (rewrittenUrl this u)) w)) as (l & T & Q).
  rewrite Hdl in T. cbn [snd] in T.
  assert (S : since w (emit (EChildSend (<["url" := JStr path]> msg)) w2)
              = EImport (rewrittenUrl this u) :: l
                ++ [EChildSend (<["url" := JStr path]> msg)]).
  { apply since_app. cbn. rewrite T. cbn. rewrite <- !app_assoc. reflexivity. }
  rewrite S. cbn [List.filter is_import is_send].
  rewrite !List.filter_app, (filter_quiet_import _ Q), (filter_quiet_send _ Q).
  split; [reflexivity|]. split; [reflexivity|]. split.
  { unfold format_host. cbn [set_host host]. subst proxy.
    rewrite truthy_host_port. reflexivity. }
  split; [reflexivity|]. split.
  - apply lookup_insert_eq.
  - intros k Hk. apply lookup_insert_ne. congruence.
Qed.

End Claims.
End WorkerClaims.

(** ** The claims on [ConnectionManager] *)

Module ManagerFacts.
Import ConnectionManager.

Lemma live_from_app (cur : list nat) (l1 l2 : list (nat * Action)) :
  live_from cur (l1 ++ l2) = live_from (live_from cur l1) l2.
Proof. unfold live_from. apply fold_left_app. Qed.

Lemma live_snoc (l : list (nat * Action)) (p : nat * Action) :
  live (l ++ [p]) = after (live l) (snd p).
Proof. unfold live. rewrite live_from_app. reflexivity. Qed.

Lemma safe_from_length (cur : list nat) (l : list (nat * Action)) :
  safe_from cur l -> (length cur <= 1)%nat.
Proof. destruct l; intros [L _]; exact L. Qed.

Lemma safe_from_app (cur : list nat) (l1 l2 : list (nat * Action)) :
  safe_from cur (l1 ++ l2) <-> safe_from cur l1 /\ safe_from (live_from cur l1) l2.
Proof.
  revert cur. induction l1 as [|p l1 IH]; intros cur; cbn [app].
  - split.
    + intros S. split; [|exact S]. split; [eapply safe_from_length, S | exact I].
    + intros [_ S]. exact S.
  - cbn [safe_from]. rewrite IH. unfold live_from. cbn [fold_left]. tauto.
Qed.

Lemma neutral_after (cur : list nat) (a : Action) :
  neutral a = true -> after cur a = cur.
Proof. destruct a; cbn; intros E; (reflexivity || discriminate E). Qed.

Lemma Inv_neutral (l : list (nat * Action)) (o : option nat) (t : nat) (a : Action) :
  neutral a = true -> Inv l o -> Inv (l ++ [(t, a)]) o.
Proof.
  intros N [S L]. split.
  - apply safe_from_app. split; [exact S|]. fold (live l). rewrite L.
    cbn [safe_from snd]. rewrite (neutral_after _ _ N).
    assert (Len : (length (olist o) <= 1)%nat) by (destruct o; cbn; lia).
    repeat split; try exact Len.
    intros w E. rewrite E in N. discriminate N.
  - rewrite live_snoc, L. apply neutral_after, N.
Qed.

Lemma filter_self (v : nat) :
  List.filter (fun x => negb (Nat.eqb x v)) [v] = [].
Proof. cbn. rewrite Nat.eqb_refl. reflexivity. Qed.

Lemma Inv_end (l : list (nat * Action)) (v t : nat) (a : Action) :
  a = AWorkerStop v \/ a = AWorkerDrop v ->
  Inv l (Some v) -> Inv (l ++ [(t, a)]) None.
Proof.
  intros Ha [S L].
  assert (A : after [v] a = []) by (destruct Ha as [-> | ->]; apply filter_self).
  split.
  - apply safe_from_app. split; [exact S|]. fold (live l). rewrite L.
    cbn [safe_from snd olist]. rewrite A. cbn.
    repeat split; try lia. intros w E. destruct Ha as [-> | ->]; discriminate E.
  - rewrite live_snoc, L. exact A.
Qed.

Lemma Inv_create (l : list (nat * Action)) (w t : nat) :
  Inv l None -> Inv (l ++ [(t, AWorkerCreate w)]) (Some w).
Proof.
  intros [S L]. split.
  - apply safe_from_app. split; [exact S|]. fold (live l). rewrite L.
    cbn. repeat split; lia.
  - rewrite live_snoc, L. reflexivity.
Qed.

Section Reachable.
Variable isRunning : nat -> bool.

Lemma start_Inv (s : t) :
  Inv (log s) (worker s) -> Inv (log (start isRunning s)) (worker (start isRunning s)).
Proof.
  intros I. unfold start.
  destruct (isRunning (now s)), (socket s); cbn; try exact I;
    apply Inv_neutral; auto.
Qed.

Lemma stop_Inv (s : t) :
  Inv (log s) (worker s) -> Inv (log (stop s)) (worker (stop s)).
Proof.
  intros I. unfold stop.
  set (s1 := match timer s with Some _ => _ | None => _ end).
  assert (I1 : Inv (log s1) (worker s1)).
  { subst s1. destruct (timer s); [|exact I].
    cbn. apply Inv_neutral; [reflexivity | exact I]. }
  clearbody s1.
  set (s2 := match worker s1 with Some _ => _ | None => _ end).
  assert (I2 : Inv (log s2) (worker s2)).
  { subst s2. destruct (worker s1) as [v|] eqn:W; [|rewrite W; exact I1].
    cbn. eapply Inv_end; [left; reflexivity | exact I1]. }
  clearbody s2.
  destruct (socket s2); [|exact I2].
  cbn. apply Inv_neutral; [reflexivity | exact I2].
Qed.

Lemma prepareJSRuntime_Inv (msg : Message) (s : t) :
  Inv (log s) (worker s) ->
  Inv (log (prepareJSRuntime msg s)) (worker (prepareJSRuntime msg s)).
Proof.
  intros I. unfold prepareJSRuntime.
  destruct (worker s) as [v|] eqn:W; cbn;
    (apply Inv_neutral; [reflexivity|]); apply Inv_create;
    try (eapply Inv_end; [left; reflexivity|]); exact I.
Qed.

Lemma step_Inv (s : t) (e : Event) :
  Inv (log s) (worker s) ->
  Inv (log (step isRunning s e)) (worker (step isRunning s e)).
Proof.
  intros I. destruct e as [| | |m|reason| |w ok|ms]; cbn [step].
  - apply start_Inv, I.
  - apply stop_Inv, I.
  - unfold onOpen. destruct (socket s); exact I.
  - unfold onMessage. destruct (socket s); [|exact I].
    destruct m as [msg|]; [|apply Inv_neutral; [reflexivity | exact I]].
    destruct (bool_decide _); [apply prepareJSRuntime_Inv, I|].
    destruct (worker s) eqn:W; cbn; rewrite ?W; [|exact I].
    apply Inv_neutral; [reflexivity | exact I].
  - unfold onClose. destruct (socket s); [|exact I].
    destruct (includes _ _); cbn.
    + destruct (timer s); cbn; [|exact I].
      apply Inv_neutral; [reflexivity | exact I].
    + apply Inv_neutral; [reflexivity | exact I].
  - exact I.
  - unfold onWorkerStarted. destruct (owed w (starting s)); [|exact I].
    cbn. destruct ok; cbn.
    + apply Inv_neutral; [reflexivity | exact I].
    + destruct (bool_decide (worker s = Some w)) eqn:B; cbn.
      * apply bool_decide_eq_true_1 in B. rewrite B in I.
        apply Inv_neutral; [reflexivity|].
        eapply Inv_end; [right; reflexivity | exact I].
      * apply Inv_neutral; [reflexivity | exact I].
  - unfold elapse. destruct (timer s) as [d|]; [|exact I].
    destruct (d <=? now s + ms)%nat; [|exact I].
    cbn. apply (start_Inv (act AReconnect (set_timer None (set_now (Nat.max (now s) d) s)))).
    cbn. apply Inv_neutral; [reflexivity | exact I].
Qed.

Lemma run_Inv (s : t) (evs : list Event) :
  Inv (log s) (worker s) ->
  Inv (log (run isRunning s evs)) (worker (run isRunning s evs)).
Proof.
  revert s. induction evs as [|e evs IH]; intros s I; [exact I|].
  cbn. apply IH, step_Inv, I.
Qed.

(** C1.  Along every run of the manager, the worker it has registered is
    the only one alive; at every point of the log at most one worker is
    alive; and no worker is alive at the point where one is created.  A
    [prepareJSRuntime] message received on the socket first stops the
    registered worker, if there is one, then creates the next worker and
    calls its [start()]. *)
Theorem one_active_worker (address : string) (port : Z) (evs : list Event) :
  let s := run isRunning (init address port) evs in
  live (log s) = olist (worker s)
  /\ (forall before a rest,
        log s = before ++ a :: rest ->
        (length (live before) <= 1)%nat
        /\ (length (live (before ++ [a])) <= 1)%nat
        /\ forall w, snd a = AWorkerCreate w -> live before = [])
  /\ (forall msg,
        socket s <> None ->
        msg !! "method" = Some (JStr "prepareJSRuntime") ->
        let s' := step isRunning s (SocketMessage (Some msg)) in
        worker s' = Some (fresh s)
        /\ log s'
           = log s
             ++ match worker s with
                | Some v => [(now s, AWorkerStop v)]
                | None => []
                end
             ++ [(now s, AWorkerCreate (fresh s)); (now s, AWorkerStart (fresh s))]).
Proof.
  intros s.
  assert (I : Inv (log s) (worker s)).
  { apply run_Inv. split; [cbn; split; [lia | exact I] | reflexivity]. }
  destruct I as [S L]. split; [exact L|]. split.
  - intros before a rest E. rewrite E in S.
    apply safe_from_app in S as [_ S]. fold (live before) in S.
    cbn [safe_from] in S. destruct S as (L1 & C & S2).
    apply safe_from_length in S2. rewrite live_snoc.
    repeat split; assumption.
  - intros msg Hsock Hm s'. subst s'. cbn [step]. unfold onMessage.
    destruct (socket s); [|congruence].
    rewrite bool_decide_eq_true_2 by exact Hm.
    unfold prepareJSRuntime. destruct (worker s); cbn; rewrite <- ?app_assoc; auto.
Qed.

End Reachable.
End ManagerFacts.

Module ReplyFacts.
Import ConnectionManager.

Lemma silent_refl (w : nat) (s : t) : silent w s s.
Proof. repeat split; auto. Qed.

Lemma silent_trans (w : nat) (s1 s2 s3 : t) :
  silent w s1 s2 -> silent w s2 s3 -> silent w s1 s3.
Proof.
  intros (A1 & B1 & C1) (A2 & B2 & C2). repeat split; [congruence | lia | congruence].
Qed.

Lemma filter_snoc {A} (f : A -> bool) (l : list A) (x : A) :
  List.filter f (l ++ [x]) = List.filter f l ++ (if f x then [x] else []).
Proof. rewrite List.filter_app. reflexivity. Qed.

(** Push a filter through the actions a handler appended to the log. *)
Ltac log_filter := cbn; rewrite ?filter_snoc; cbn; rewrite ?app_nil_r.

Lemma owed_In (w : nat) (id : option Json) (l : list (nat * option Json)) :
  owed w l = Some id -> In (w, id) l.
Proof.
  unfold owed. destruct (List.find _ l) as [[v i]|] eqn:F; [|discriminate].
  cbn. intros [= <-]. apply List.find_some in F as [Hin Heq].
  cbn in Heq. apply Nat.eqb_eq in Heq. subst v. exact Hin.
Qed.

Lemma owed_snoc_old (w v : nat) (i : option Json) (l : list (nat * option Json)) :
  v <> w -> owed w (l ++ [(v, i)]) = owed w l.
Proof.
  intros Hne. unfold owed. induction l as [|[a b] l IH]; cbn.
  - destruct (Nat.eqb_spec v w); [contradiction | reflexivity].
  - destruct (a =? w)%nat; [reflexivity | exact IH].
Qed.

Lemma owed_snoc_new (w : nat) (i : option Json) (l : list (nat * option Json)) :
  (forall p, In p l -> fst p <> w) -> owed w (l ++ [(w, i)]) = Some i.
Proof.
  intros Hl. unfold owed. induction l as [|[a b] l IH]; cbn.
  - rewrite Nat.eqb_refl. reflexivity.
  - destruct (Nat.eqb_spec a w) as [E|_].
    + exfalso. apply (Hl (a, b)); [left; reflexivity | exact E].
    + apply IH. intros p Hp. apply Hl. right. exact Hp.
Qed.

Lemma owed_settle_other (w v : nat) (l : list (nat * option Json)) :
  v <> w -> owed w (settle v l) = owed w l.
Proof.
  intros Hne. unfold owed, settle. induction l as [|[a b] l IH]; cbn; [reflexivity|].
  destruct (Nat.eqb_spec a v) as [->|Hav]; cbn.
  - destruct (Nat.eqb_spec v w); [contradiction | exact IH].
  - destruct (a =? w)%nat; [reflexivity | exact IH].
Qed.

Lemma owed_settle_same (w : nat) (l : list (nat * option Json)) :
  owed w (settle w l) = None.
Proof.
  unfold owed, settle. induction l as [|[a b] l IH]; cbn; [reflexivity|].
  destruct (Nat.eqb_spec a w) as [->|Haw]; cbn; [exact IH|].
  destruct (Nat.eqb_spec a w); [contradiction | exact IH].
Qed.

Lemma settle_In (v : nat) (l : list (nat * option Json)) (p : nat * option Json) :
  In p (settle v l) -> In p l.
Proof. unfold settle. intros Hp. apply List.filter_In in Hp. tauto. Qed.

Section Run.
Variable isRunning : nat -> bool.

Lemma start_silent (w : nat) (s : t) : silent w s (start isRunning s).
Proof.
  unfold start, silent.
  destruct (isRunning (now s)), (socket s); log_filter; repeat split; auto.
Qed.

Lemma stop_silent (w : nat) (s : t) : silent w s (stop s).
Proof.
  unfold stop.
  set (s1 := match timer s with Some _ => _ | None => _ end).
  assert (Q1 : silent w s s1).
  { subst s1. destruct (timer s); [|apply silent_refl].
    unfold silent. cbn. rewrite filter_snoc. cbn. rewrite app_nil_r. auto. }
  clearbody s1.
  set (s2 := match worker s1 with Some _ => _ | None => _ end).
  assert (Q2 : silent w s1 s2).
  { subst s2. destruct (worker s1); [|apply silent_refl].
    unfold silent. cbn. rewrite filter_snoc. cbn. rewrite app_nil_r. auto. }
  clearbody s2.
  apply (silent_trans _ _ _ _ Q1), (silent_trans _ _ _ _ Q2).
  destruct (socket s2); unfold silent; log_filter; auto.
Qed.

Lemma onClose_silent (w : nat) (reason : string) (s : t) :
  silent w s (onClose reason s).
Proof.
  unfold onClose. destruct (socket s); [|apply silent_refl].
  change (timer (set_socket None s)) with (timer s).
  destruct (includes _ _); [destruct (timer s)|]; unfold silent; log_filter; auto.
Qed.

Lemma elapse_silent (w : nat) (ms : nat) (s : t) : silent w s (elapse isRunning ms s).
Proof.
  assert (N : forall n s0, silent w s0 (set_now n s0)) by (repeat split; auto).
  unfold elapse. destruct (timer s) as [d|]; [|apply N].
  destruct (d <=? now s + ms)%nat; [|apply N].
  set (s1 := act AReconnect _).
  assert (Q1 : silent w s s1).
  { subst s1. unfold silent. cbn. rewrite filter_snoc. cbn. rewrite app_nil_r. auto. }
  clearbody s1. apply (silent_trans _ _ _ _ Q1).
  apply (silent_trans _ _ (start isRunning s1)); [apply start_silent | apply N].
Qed.

(** A message leaves the replies alone; a [prepareJSRuntime] message takes
    the next worker number and owes a reply for it. *)
Lemma onMessage_starting (w : nat) (m : option Message) (s : t) :
  List.filter (is_reply_for w) (log (onMessage m s))
  = List.filter (is_reply_for w) (log s)
  /\ (fresh s <= fresh (onMessage m s))%nat
  /\ (starting (onMessage m s) = starting s
      \/ exists i, starting (onMessage m s) = starting s ++ [(fresh s, i)]
                   /\ fresh (onMessage m s) = S (fresh s)).
Proof.
  unfold onMessage. destruct (socket s); [|auto].
  destruct m as [msg|]; [|cbn; rewrite filter_snoc; cbn; rewrite app_nil_r; auto].
  destruct (bool_decide _).
  - unfold prepareJSRuntime. destruct (worker s); cbn; rewrite !filter_snoc; cbn;
      rewrite !app_nil_r; (split; [reflexivity|]); (split; [lia|]); right; eauto.
  - destruct (worker s); log_filter; auto.
Qed.

Lemma onWorkerStarted_other (w v : nat) (ok : bool) (s : t) :
  v <> w ->
  List.filter (is_reply_for w) (log (onWorkerStarted v ok s))
  = List.filter (is_reply_for w) (log s)
  /\ fresh (onWorkerStarted v ok s) = fresh s
  /\ owed w (starting (onWorkerStarted v ok s)) = owed w (starting s).
Proof.
  intros Hne. unfold onWorkerStarted. destruct (owed v (starting s)); [|auto].
  assert (R : (v =? w)%nat = false) by (apply Nat.eqb_neq, Hne).
  destruct (negb ok && bool_decide _); cbn; rewrite !filter_snoc; cbn; rewrite R;
    rewrite !app_nil_r; repeat split; auto; apply owed_settle_other, Hne.
Qed.

Lemma onWorkerStarted_same (w : nat) (ok : bool) (id : option Json) (s : t) :
  Owed w id s ->
  Replied w (now s, AReply w id) (onWorkerStarted w ok s).
Proof.
  intros (O & F & L). unfold onWorkerStarted, Replied. rewrite O.
  destruct (negb ok && bool_decide _); cbn; rewrite !filter_snoc; cbn;
    rewrite Nat.eqb_refl, F; repeat split; auto; apply owed_settle_same.
Qed.

Lemma step_Owed (w : nat) (id : option Json) (s : t) (e : Event) :
  (forall ok, e <> WorkerStarted w ok) ->
  Owed w id s -> Owed w id (step isRunning s e).
Proof.
  intros Hne (O & F & L).
  assert (Q : forall s', silent w s s' -> Owed w id s').
  { intros s' (A & B & C). unfold Owed. rewrite A, C. repeat split; auto; lia. }
  destruct e as [| | |m|reason| |v ok|ms]; cbn [step].
  - apply Q, start_silent.
  - apply Q, stop_silent.
  - apply Q. unfold onOpen. destruct (socket s); repeat split; auto.
  - destruct (onMessage_starting w m s) as (A & B & [C | (i & C & D)]).
    + unfold Owed. rewrite A, C. repeat split; auto; lia.
    + unfold Owed. rewrite A, C, D. repeat split; auto.
      rewrite owed_snoc_old; [exact O | lia].
  - apply Q, onClose_silent.
  - apply Q, silent_refl.
  - destruct (Nat.eq_dec v w) as [->|Hv]; [exfalso; apply (Hne ok); reflexivity|].
    destruct (onWorkerStarted_other w v ok s Hv) as (A & B & C).
    unfold Owed. rewrite A, B, C. auto.
  - apply Q, elapse_silent.
Qed.

Lemma step_Replied (w : nat) (r : nat * Action) (s : t) (e : Event) :
  Replied w r s -> Replied w r (step isRunning s e).
Proof.
  intros (O & F & L).
  assert (Q : forall s', silent w s s' -> Replied w r s').
  { intros s' (A & B & C). unfold Replied. rewrite A, C. repeat split; auto; lia. }
  destruct e as [| | |m|reason| |v ok|ms]; cbn [step].
  - apply Q, start_silent.
  - apply Q, stop_silent.
  - apply Q. unfold onOpen. destruct (socket s); repeat split; auto.
  - destruct (onMessage_starting w m s) as (A & B & [C | (i & C & D)]).
    + unfold Replied. rewrite A, C. repeat split; auto; lia.
    + unfold Replied. rewrite A, C, D. repeat split; auto.
      rewrite owed_snoc_old; [exact O | lia].
  - apply Q, onClose_silent.
  - apply Q, silent_refl.
  - destruct (Nat.eq_dec v w) as [->|Hv].
    + unfold onWorkerStarted. rewrite O. repeat split; auto.
    + destruct (onWorkerStarted_other w v ok s Hv) as (A & B & C).
      unfold Replied. rewrite A, B, C. auto.
  - apply Q, elapse_silent.
Qed.

Lemma run_Owed (w : nat) (id : option Json) (evs : list Event) (s : t) :
  (forall ok, ~ In (WorkerStarted w ok) evs) ->
  Owed w id s -> Owed w id (run isRunning s evs).
Proof.
  revert s. induction evs as [|e evs IH]; intros s Hno O; [exact O|].
  cbn. apply IH.
  - intros ok Hin. apply (Hno ok). right. exact Hin.
  - apply step_Owed; [|exact O]. intros ok ->. apply (Hno ok). left. reflexivity.
Qed.

Lemma run_Replied (w : nat) (r : nat * Action) (evs : list Event) (s : t) :
  Replied w r s -> Replied w r (run isRunning s evs).
Proof.
  revert s. induction evs as [|e evs IH]; intros s R; [exact R|].
  cbn. apply IH, step_Replied, R.
Qed.

Lemma step_Fresh (s : t) (e : Event) : Fresh s -> Fresh (step isRunning s e).
Proof.
  intros [FS FL].
  assert (Q : forall s', (forall w, silent w s s') -> Fresh s').
  { intros s' Hs. destruct (Hs 0%nat) as (A & B & _). split.
    - rewrite A. intros p Hp. specialize (FS p Hp). lia.
    - intros p Hp v Hv.
      assert (Hin : In p (List.filter (is_reply_for v) (log s'))).
      { apply List.filter_In. auto. }
      destruct (Hs v) as (_ & _ & C). rewrite C in Hin.
      apply List.filter_In in Hin as [Hin _]. specialize (FL p Hin v Hv). lia. }
  destruct e as [| | |m|reason| |v ok|ms]; cbn [step].
  - apply Q. intros w. apply start_silent.
  - apply Q. intros w. apply stop_silent.
  - apply Q. intros w. unfold onOpen. destruct (socket s); repeat split; auto.
  - split.
    + destruct (onMessage_starting 0%nat m s) as (_ & B & [C | (i & C & D)]).
      * rewrite C. intros p Hp. specialize (FS p Hp). lia.
      * rewrite C, D. intros p Hp. apply in_app_or in Hp as [Hp | [<- | []]].
        -- specialize (FS p Hp). lia.
        -- cbn. lia.
    + intros p Hp v Hv.
      destruct (onMessage_starting v m s) as (A & B & _).
      assert (Hin : In p (List.filter (is_reply_for v) (log (onMessage m s)))).
      { apply List.filter_In. auto. }
      rewrite A in Hin. apply List.filter_In in Hin as [Hin _].
      specialize (FL p Hin v Hv). lia.
  - apply Q. intros w. apply onClose_silent.
  - apply Q. intros w. apply silent_refl.
  - unfold onWorkerStarted. destruct (owed v (starting s)) as [id|] eqn:O;
      [|split; assumption].
    apply owed_In in O. pose proof (FS _ O) as FO. cbn in FO.
    destruct (negb ok && bool_decide _); split; cbn.
    + intros p Hp. apply settle_In in Hp. auto.
    + intros p Hp u Hu. apply in_app_or in Hp as [Hp | [<- | []]].
      * apply in_app_or in Hp as [Hp | [<- | []]]; [eauto | discriminate Hu].
      * cbn in Hu. apply Nat.eqb_eq in Hu. lia.
    + intros p Hp. apply settle_In in Hp. auto.
    + intros p Hp u Hu. apply in_app_or in Hp as [Hp | [<- | []]]; [eauto|].
      cbn in Hu. apply Nat.eqb_eq in Hu. lia.
  - apply Q. intros w. apply elapse_silent.
Qed.

Lemma run_Fresh (s : t) (evs : list Event) : Fresh s -> Fresh (run isRunning s evs).
Proof.
  revert s. induction evs as [|e evs IH]; intros s F; [exact F|].
  cbn. apply IH, step_Fresh, F.
Qed.

Lemma run_app (s : t) (evs1 evs2 : list Event) :
  run isRunning s (evs1 ++ evs2) = run isRunning (run isRunning s evs1) evs2.
Proof. unfold run. apply fold_left_app. Qed.

(** C3.  A [prepareJSRuntime] message received on the open socket starts a
    new worker; no reply for it is sent as long as the promise of its
    [start()] has not settled; once that promise settles, the reply
    [{"replyID": id}] with the id of the message is sent at that moment, and
    whatever happens next it remains the only reply for that request. *)
Theorem reply_once_after_start (address : string) (port : Z)
    (evs1 : list Event) (msg : Message) :
  let s0 := run isRunning (init address port) evs1 in
  socket s0 <> None ->
  msg !! "method" = Some (JStr "prepareJSRuntime") ->
  let w := fresh s0 in
  let s1 := step isRunning s0 (SocketMessage (Some msg)) in
  In (now s0, AWorkerStart w) (log s1)
  /\ (forall evs2,
        (forall ok, ~ In (WorkerStarted w ok) evs2) ->
        List.filter (is_reply_for w) (log (run isRunning s1 evs2)) = [])
  /\ (forall evs2 ok evs3,
        (forall ok', ~ In (WorkerStarted w ok') evs2) ->
        List.filter (is_reply_for w)
          (log (run isRunning s1 (evs2 ++ WorkerStarted w ok :: evs3)))
        = [(now (run isRunning s1 evs2), AReply w (msg !! "id"))]).
Proof.
  intros s0 Hsock Hm w s1.
  assert (F0 : Fresh s0).
  { apply run_Fresh. split; intros p []. }
  assert (O1 : Owed w (msg !! "id") s1).
  { subst s1 w. cbn [step]. unfold onMessage.
    destruct (socket s0); [|congruence].
    rewrite bool_decide_eq_true_2 by exact Hm.
    destruct F0 as [FS FL]. unfold prepareJSRuntime, Owed.
    assert (N : List.filter (is_reply_for (fresh s0)) (log s0) = []).
    { destruct (List.filter _ (log s0)) as [|p l] eqn:E; [reflexivity|].
      assert (Hin : In p (List.filter (is_reply_for (fresh s0)) (log s0)))
        by (rewrite E; left; reflexivity).
      apply List.filter_In in Hin as [Hin Hp]. specialize (FL p Hin _ Hp). lia. }
    assert (K : forall p, In p (starting s0) -> fst p <> fresh s0).
    { intros p Hp. specialize (FS p Hp). lia. }
    destruct (worker s0); cbn; rewrite !filter_snoc; cbn; rewrite N;
      repeat split; auto; apply owed_snoc_new, K. }
  split.
  - subst s1 w. cbn [step]. unfold onMessage.
    destruct (socket s0); [|congruence].
    rewrite bool_decide_eq_true_2 by exact Hm.
    unfold prepareJSRuntime. destruct (worker s0); cbn;
      apply in_or_app; right; left; reflexivity.
  - split.
    + intros evs2 Hno. apply (run_Owed w _ evs2 s1 Hno O1).
    + intros evs2 ok evs3 Hno. rewrite run_app. cbn [run fold_left].
      pose proof (run_Owed w _ evs2 s1 Hno O1) as O2.
      pose proof (onWorkerStarted_same w ok _ _ O2) as R.
      apply (run_Replied w _ evs3) in R. apply R.
Qed.

End Run.
End ReplyFacts.

Module ReconnectFacts.
Import ConnectionManager ReplyFacts.




Section Run.
Variable isRunning : nat -> bool.
















End Run.
End ReconnectFacts.

(** ** The proxy that does not answer *)

Module AttachClaims.
Section Claims.
Import Request ScriptImporter.

Context `{Collaborators}.

Lemma cannotAttachText_names_port (port : Z) :
  contains (toString port) (cannotAttachText port).
Proof. apply contains_middle. Qed.

(** C9.  When the reachability check says that no packager is running,
    [downloadDebuggerWorker] fails with an error whose message contains the
    configured port and issues no HTTP request, and
    [ConnectionManager.start] fails with such an error and constructs no
    socket.  When the packager is running, [downloadDebuggerWorker] issues
    one GET, for [debuggerWorker.js] at the root of the packager's host,
    and a 200 answer makes it return the body as received. *)
Theorem unreachable_proxy_fails_with_port :
  (forall (this : ScriptImporter.t) (w : World),
     running w (getHostForPort (packagerPort this)) = false ->
     exists e,
       fst (downloadDebuggerWorker this w) = Rejected e
       /\ contains (toString (packagerPort this)) (err_message e)
       /\ gets (since w (snd (downloadDebuggerWorker this w))) = [])
  /\ (forall (this : ScriptImporter.t) (w : World),
        running w (getHostForPort (packagerPort this)) = true ->
        let r := mkRequest ("http://" +:+ getHostForPort (packagerPort this)
                            +:+ "/debuggerWorker.js") ∅ in
        gets (since w (snd (downloadDebuggerWorker this w))) = [EHttpGet r]
        /\ forall res,
             net w r = Responded res -> statusCode res = 200 ->
             fst (downloadDebuggerWorker this w) = Fulfilled (res_body res))
  /\ (forall (isRunning : nat -> bool) (s : ConnectionManager.t),
        isRunning (ConnectionManager.now s) = false ->
        let s' := ConnectionManager.start isRunning s in
        ConnectionManager.socket s' = ConnectionManager.socket s
        /\ List.filter ConnectionManager.is_socket_open (ConnectionManager.log s')
           = List.filter ConnectionManager.is_socket_open (ConnectionManager.log s)
        /\ exists e,
             ConnectionManager.log s'
             = ConnectionManager.log s
               ++ [(ConnectionManager.now s, ConnectionManager.AStartFailed e)]
             /\ contains (toString (ConnectionManager.port s)) (err_message e)).
Proof.
  split; [|split].
  - intros this w Hdown. unfold downloadDebuggerWorker, isPackagerRunning.
    rewrite Hdown. cbn [negb fst snd].
    eexists. split; [reflexivity|]. split.
    + apply cannotAttachText_names_port.
    + rewrite since_emit. reflexivity.
  - intros this w Hup r. unfold downloadDebuggerWorker, isPackagerRunning.
    rewrite Hup. cbn [negb]. unfold request, http_get. cbn [fst snd].
    split.
    + erewrite since_app; [|cbn; rewrite <- !app_assoc; reflexivity]. reflexivity.
    + intros res Hnet H200. cbn [net emit].
      change (debuggerWorkerURL this) with (req_url r).
      change (mkRequest (req_url r) ∅) with r. rewrite Hnet.
      cbn. rewrite H200. reflexivity.
  - intros isRunning s Hdown s'. subst s'. unfold ConnectionManager.start.
    rewrite Hdown.
    destruct (ConnectionManager.socket s) eqn:S; cbn; rewrite S;
      rewrite ReplyFacts.filter_snoc; cbn; rewrite app_nil_r;
      (split; [reflexivity|]); (split; [reflexivity|]);
      eexists; (split; [reflexivity|]); apply cannotAttachText_names_port.
Qed.

End Claims.
End AttachClaims.

(* ===================================================================== *)
(** * The model at work                                                   *)
(* ===================================================================== *)

Module Witnesses.
Import Fixture Runs Request ScriptImporter.



Lemma downloadAppScript_unchanged_no_write_witness :
  exists this2 w2,
    downloadAppScript warmed bundleUrl warm
    = (Fulfilled "/tmp/rn/index.bundle", this2, w2)
    /\ since warm w2
       = [EHttpGet (etag_request (overriddenScriptUrlString importer bundleUrl)
                                 (appScriptEtag warmed))]
    /\ writes (since warm w2) = []
    /\ files w2 = files warm.
Proof.
  apply (ImporterClaims.downloadAppScript_unchanged_no_write
           importer bundleUrl cold "/tmp/rn/index.bundle" warmed warm
           (mkResponse 304 (Some {[ "etag" := "v1" ]}) "")).
  - vm_compute. reflexivity.
  - vm_compute. reflexivity.
  - vm_compute. reflexivity.
  - reflexivity.
Defined.

Lemma downloadAppScript_missing_file_fetches_witness :
  (exists rest,
     since cold (snd (downloadAppScript stale bundleUrl cold))
     = EHttpGet (mkRequest bundleUrl ∅) :: rest)
  /\ writes (since cold (snd (downloadAppScript stale bundleUrl cold)))
     = [EWriteFile "/tmp/rn/index.bundle" "code"]
  /\ writes (since cold (snd (downloadAppScript stale missingUrl cold))) = [].
Proof.
  split; [|split].
  - destruct (ImporterClaims.downloadAppScript_missing_file_fetches stale bundleUrl cold)
      as (Hget & _); [vm_compute; reflexivity | exact Hget].
  - destruct (ImporterClaims.downloadAppScript_missing_file_fetches stale bundleUrl cold)
      as (_ & Hfull & _); [vm_compute; reflexivity|].
    apply (Hfull (mkResponse 200 (Some {[ "etag" := "v1" ]}) "code"));
      [vm_compute; reflexivity | reflexivity].
  - destruct (ImporterClaims.downloadAppScript_missing_file_fetches stale missingUrl cold)
      as (_ & _ & Hother & _); [vm_compute; reflexivity|].
    apply (Hother (mkResponse 404 (Some ∅) "Not found"));
      [vm_compute; reflexivity | discriminate].
Defined.

(** C6 as stated fails on an answer other than 200: the call finds no
    file at the cache path, sends its GET without a header, and writes
    nothing.  Answered 404 it is rejected with the body; answered 304 it is
    fulfilled with the path of a file that still does not exist. *)
Lemma downloadAppScript_missing_file_without_write :
  ~ (forall (this : ScriptImporter.t) (u : string) (w : World),
       FileSystem.existsSync (scriptFilePath this u) w = false ->
       exists content,
         In (EWriteFile (scriptFilePath this u) content)
            (since w (snd (downloadAppScript this u w))))
  /\ (FileSystem.existsSync (scriptFilePath stale missingUrl) cold = false
      /\ since cold (snd (downloadAppScript stale missingUrl cold))
         = [EHttpGet (mkRequest missingUrl ∅)]
      /\ fst (fst (downloadAppScript stale missingUrl cold))
         = Rejected (mkError KError "Not found")
      /\ FileSystem.existsSync (scriptFilePath stale missingUrl)
           (snd (downloadAppScript stale missingUrl cold)) = false)
  /\ (FileSystem.existsSync (scriptFilePath stale bundleUrl) MoreRuns.unchanged = false
      /\ since MoreRuns.unchanged
               (snd (downloadAppScript stale bundleUrl MoreRuns.unchanged))
         = [EHttpGet (mkRequest bundleUrl ∅)]
      /\ fst (fst (downloadAppScript stale bundleUrl MoreRuns.unchanged))
         = Fulfilled "/tmp/rn/index.bundle"
      /\ FileSystem.existsSync "/tmp/rn/index.bundle"
           (snd (downloadAppScript stale bundleUrl MoreRuns.unchanged)) = false).
Proof.
  split; [|vm_compute; repeat split; reflexivity].
  intros Claim.
  destruct (Claim stale missingUrl cold) as (content & Hin);
    [vm_compute; reflexivity|].
  vm_compute in Hin. destruct Hin as [E | []]. discriminate E.
Qed.

Lemma downloadAppScript_fetch_url_witness :
  overriddenScriptUrlString (ScriptImporter.mk 9090 None "/tmp/rn")
    "http://localhost:8081/index.bundle?platform=ios"
  = "http://localhost:9090/index.bundle?platform=ios".
Proof.
  destruct (ImporterClaims.downloadAppScript_fetch_url
              (ScriptImporter.mk 9090 None "/tmp/rn")
              "http://localhost:8081/index.bundle?platform=ios" cold)
    as (_ & Hlocal & _).
  destruct Hlocal as (E & _); [vm_compute; reflexivity|].
  rewrite E. vm_compute. reflexivity.
Defined.

Lemma downloadAppScript_remembers_response_etag_witness :
  appScriptEtag (snd (fst (downloadAppScript importer bundleUrl cold))) = Some "v1"
  /\ appScriptEtag (snd (fst (downloadAppScript tagged bundleUrl retagged))) = Some "v2"
  /\ appScriptEtag (snd (fst (downloadAppScript tagged bundleUrl headless))) = None
  /\ (appScriptEtag (snd (fst (downloadAppScript tagged bundleUrl mute))) = None
      /\ forall w'', exists rest,
           since w'' (snd (downloadAppScript
                             (snd (fst (downloadAppScript tagged bundleUrl mute)))
                             bundleUrl w''))
           = EHttpGet (mkRequest bundleUrl ∅) :: rest).
Proof.
  split; [|split; [|split]].
  - destruct (ImporterClaims.downloadAppScript_remembers_response_etag
                importer bundleUrl cold "/tmp/rn/index.bundle"
                (snd (fst (downloadAppScript importer bundleUrl cold)))
                (snd (downloadAppScript importer bundleUrl cold)))
      as (res & Hnet & _ & Hsome & _); [vm_compute; reflexivity|].
    assert (Hres : res = mkResponse 200 (Some {[ "etag" := "v1" ]}) "code")
      by (vm_compute in Hnet; injection Hnet as <-; vm_compute; reflexivity).
    rewrite (Hsome {[ "etag" := "v1" ]}) by (rewrite Hres; reflexivity).
    vm_compute. reflexivity.
  - destruct (ImporterClaims.downloadAppScript_remembers_response_etag
                tagged bundleUrl retagged "/tmp/rn/index.bundle"
                (snd (fst (downloadAppScript tagged bundleUrl retagged)))
                (snd (downloadAppScript tagged bundleUrl retagged)))
      as (res & Hnet & _ & Hsome & _); [vm_compute; reflexivity|].
    assert (Hres : res = mkResponse 304 (Some {[ "etag" := "v2" ]}) "")
      by (vm_compute in Hnet; injection Hnet as <-; vm_compute; reflexivity).
    rewrite (Hsome {[ "etag" := "v2" ]}) by (rewrite Hres; reflexivity).
    vm_compute. reflexivity.
  - destruct (ImporterClaims.downloadAppScript_remembers_response_etag
                tagged bundleUrl headless "/tmp/rn/index.bundle"
                (snd (fst (downloadAppScript tagged bundleUrl headless)))
                (snd (downloadAppScript tagged bundleUrl headless)))
      as (res & Hnet & _ & _ & Hnone & _); [vm_compute; reflexivity|].
    apply Hnone. vm_compute in Hnet. injection Hnet as <-. reflexivity.
  - destruct (ImporterClaims.downloadAppScript_remembers_response_etag
                tagged bundleUrl mute "/tmp/rn/index.bundle"
                (snd (fst (downloadAppScript tagged bundleUrl mute)))
                (snd (downloadAppScript tagged bundleUrl mute)))
      as (res & Hnet & _ & _ & _ & Habsent); [vm_compute; reflexivity|].
    assert (Hres : res = mkResponse 304 (Some ∅) "")
      by (vm_compute in Hnet; injection Hnet as <-; vm_compute; reflexivity).
    apply Habsent. intros h. rewrite Hres. intros [= <-]. reflexivity.
Defined.

Lemma postMessage_rewrites_url_witness :
  exists fwd this' w',
    SandboxWorker.postMessage worker fakeMessage remote = (Fulfilled fwd, this', w')
    /\ List.filter is_import (since remote w') = [EImport "http://1.2.3.4:1337/test-url"]
    /\ List.filter is_send (since remote w') = [EChildSend fwd]
    /\ fwd !! "url" = Some (JStr "/home/test/test-url")
    /\ fwd !! "method" = Some (JStr "executeApplicationScript").
Proof.
  destruct (WorkerClaims.postMessage_rewrites_url worker fakeMessage
              "http://localhost:8081/test-url" remote "/home/test/test-url"
              (snd (fst (downloadAppScript (SandboxWorker.scriptImporter worker)
                           "http://1.2.3.4:1337/test-url"
                           (emit (EImport "http://1.2.3.4:1337/test-url") remote))))
              (snd (downloadAppScript (SandboxWorker.scriptImporter worker)
                      "http://1.2.3.4:1337/test-url"
                      (emit (EImport "http://1.2.3.4:1337/test-url") remote))))
    as (fwd & this' & w' & E & Hi & _ & _ & Hs & Hu & Hk).
  - vm_compute. reflexivity.
  - vm_compute. reflexivity.
  - vm_compute. reflexivity.
  - exists fwd, this', w'. split; [exact E|]. split; [exact Hi|].
    split; [exact Hs|]. split; [exact Hu|].
    rewrite Hk by discriminate. vm_compute. reflexivity.
Defined.

Lemma unreachable_proxy_fails_with_port_witness :
  exists e,
    fst (downloadDebuggerWorker importer (world server false)) = Rejected e
    /\ contains "8081" (err_message e)
    /\ gets (since (world server false)
                   (snd (downloadDebuggerWorker importer (world server false)))) = [].
Proof.
  destruct (AttachClaims.unreachable_proxy_fails_with_port (H := collaborators))
    as (Hdown & _ & _).
  apply (Hdown importer (world server false)). reflexivity.
Defined.

Import ConnectionManager.

Lemma one_active_worker_witness :
  worker (step up (run up connected [SocketMessage (Some (prepare 1))])
               (SocketMessage (Some (prepare 2)))) = Some 2%nat.
Proof.
  destruct (ManagerFacts.one_active_worker up "localhost" 8081
              [Start; SocketOpened; SocketMessage (Some (prepare 1))])
    as (_ & _ & Hprep).
  destruct (Hprep (prepare 2)) as (Hw & _).
  - vm_compute. discriminate.
  - vm_compute. reflexivity.
  - exact Hw.
Defined.

Lemma reply_once_after_start_witness :
  List.filter (is_reply_for 1)
    (log (run up (step up connected (SocketMessage (Some (prepare 7))))
              ([Elapse 5] ++ WorkerStarted 1 true :: [SocketMessage None])))
  = [(5%nat, AReply 1 (Some (JNum 7)))].
Proof.
  destruct (ReplyFacts.reply_once_after_start up "localhost" 8081
              [Start; SocketOpened] (prepare 7))
    as (_ & _ & Honce).
  - vm_compute. discriminate.
  - vm_compute. reflexivity.
  - apply (Honce [Elapse 5] true [SocketMessage None]).
    intros ok [E | []]. discriminate E.
Defined.


End Witnesses.

(* ===================================================================== *)
(** * Further properties of the code                                      *)
(* ===================================================================== *)

(** ** [Request.request] *)

Module RequestExtras.
Import Request RequestFacts.

(** X1.  [request(url, expectStatusOK)] issues one GET without headers and
    changes nothing else.  A connection error rejects with that error.
    Without [expectStatusOK] every answer fulfils with its body, whatever
    its status; with it only a 200 does, and any other status (a 304
    included) rejects with an [Error] whose message is the body. *)
Theorem request_contract (u : string) (expectStatusOK : bool) (w : World) :
  let r := mkRequest u ∅ in
  let out := request u expectStatusOK w in
  snd out = emit (EHttpGet r) w
  /\ (forall e, net w r = NetError e -> fst out = Rejected e)
  /\ (forall res,
        net w r = Responded res ->
        expectStatusOK = false \/ statusCode res = 200 ->
        fst out = Fulfilled (res_body res))
  /\ (forall res,
        net w r = Responded res ->
        expectStatusOK = true -> statusCode res <> 200 ->
        fst out = Rejected (mkError KError (res_body res))).
Proof.
  intros r out. subst r out. unfold request, http_get. cbn [fst snd].
  split; [reflexivity|]. split; [|split].
  - intros e ->. reflexivity.
  - intros res -> Hc. unfold request_result. destruct Hc as [-> | ->]; [reflexivity|].
    destruct expectStatusOK; reflexivity.
  - intros res -> -> Hne. unfold request_result. apply Z.eqb_neq in Hne.
    rewrite Hne. reflexivity.
Qed.

End RequestExtras.

(** ** [ScriptImporter] *)

Module ImporterExtras.
Section Extras.
Import Request RequestFacts ScriptImporter ImporterFacts ImporterClaims.

Context `{Collaborators}.

(** The world a 200 answer leaves. *)
Lemma downloadAppScript_200_world (this : t) (u : string) (w : World) (res : HttpResponse) :
  net w (bundleRequest this u w) = Responded res ->
  statusCode res = 200 ->
  downloadAppScript this u w
  = (Fulfilled (scriptFilePath this u),
     set_etag (response_etag res) (primed this u w),
     emit (ELog ("Script " +:+ overriddenScriptUrlString this u
                 +:+ " downloaded to " +:+ scriptFilePath this u))
       (FileSystem.writeFile (scriptFilePath this u)
          (storedBody this u (res_body res))
          match getSourceMapURL (url_parse (overriddenScriptUrlString this u))
                                (res_body res) with
          | None => emit (EHttpGet (bundleRequest this u w)) w
          | Some sm =>
              writeAppSourceMap (set_etag (response_etag res) (primed this u w)) sm
                (url_parse (overriddenScriptUrlString this u))
                (emit (EHttpGet (bundleRequest this u w)) w)
          end)).
Proof.
  intros Hnet H2. unfold downloadAppScript, requestWithEtag, http_get.
  fold (scriptFilePath this u). fold (primed this u w).
  fold (bundleRequest this u w). rewrite Hnet, H2.
  cbn [negb andb Z.eqb Pos.eqb fst snd code body etag].
  unfold storedBody.
  destruct (getSourceMapURL _ _); reflexivity.
Qed.

(** The four ways a download can go. *)
Lemma downloadAppScript_cases (this : t) (u : string) (w : World) :
  (exists e, net w (bundleRequest this u w) = NetError e)
  \/ (exists res, net w (bundleRequest this u w) = Responded res
                  /\ statusCode res <> 200 /\ statusCode res <> 304)
  \/ (exists res, net w (bundleRequest this u w) = Responded res
                  /\ statusCode res = 304)
  \/ (exists res, net w (bundleRequest this u w) = Responded res
                  /\ statusCode res = 200).
Proof.
  destruct (net w (bundleRequest this u w)) as [e|res]; [left; eauto|].
  destruct (decide (statusCode res = 304)); [right; right; left; eauto|].
  destruct (decide (statusCode res = 200)); [right; right; right; eauto|].
  right; left; eauto.
Qed.

(** X2.  A download leaves the servers and the packager as they are, keeps
    the importer's port and storage directory, changes no file other than
    the one at the cache path of its URL, and has no effect other than
    GETs, writes to that cache path and log lines. *)
Theorem downloadAppScript_frame (this : t) (u : string) (w : World) :
  let out := downloadAppScript this u w in
  net (snd out) = net w
  /\ running (snd out) = running w
  /\ (forall p, p <> scriptFilePath this u ->
        files (snd out) !! p = files w !! p)
  /\ packagerPort (snd (fst out)) = packagerPort this
  /\ sourcesStoragePath (snd (fst out)) = sourcesStoragePath this
  /\ (forall e, In e (since w (snd out)) ->
        (exists r, e = EHttpGet r)
        \/ (exists content, e = EWriteFile (scriptFilePath this u) content)
        \/ (exists msg, e = ELog msg)).
Proof.
  intros out. subst out.
  assert (P : packagerPort (primed this u w) = packagerPort this
              /\ sourcesStoragePath (primed this u w) = sourcesStoragePath this).
  { unfold primed. destruct (negb _); auto. }
  destruct P as [Pp Ps].
  destruct (downloadAppScript_cases this u w)
    as [(e0 & Hn) | [(res & Hn & H2 & H3) | [(res & Hn & H3) | (res & Hn & H2)]]].
  - rewrite (downloadAppScript_error _ _ _ _ Hn). cbn [fst snd].
    rewrite since_emit. repeat split; auto.
    intros e [<- | []]. left. eauto.
  - rewrite (downloadAppScript_bad _ _ _ _ Hn H2 H3). cbn [fst snd].
    rewrite since_emit. repeat split; auto.
    intros e [<- | []]. left. eauto.
  - rewrite (downloadAppScript_304 _ _ _ _ Hn H3). cbn [fst snd].
    rewrite since_emit. repeat split; auto.
    intros e [<- | []]. left. eauto.
  - rewrite (downloadAppScript_200_world _ _ _ _ Hn H2). cbn [fst snd].
    destruct (getSourceMapURL _ _) as [sm|]; cbn;
      (split; [reflexivity|]); (split; [reflexivity|]);
      (split; [intros p Hp; apply lookup_insert_ne; congruence|]);
      (split; [exact Pp|]); (split; [exact Ps|]).
    + erewrite since_app; [|cbn; rewrite <- !app_assoc; reflexivity].
      intros e [<- | [<- | [<- | [<- | []]]]]; eauto.
    + erewrite since_app; [|cbn; rewrite <- !app_assoc; reflexivity].
      intros e [<- | [<- | [<- | []]]]; eauto.
Qed.


(** X4.  A download whose GET fails, with a connection error or with a
    status other than 200 and 304, is rejected, with that error or with an
    [Error] whose message is the body received.  It has issued that one GET
    and nothing else, written nothing and started no source map download.
    When the cache file exists the importer is exactly as before, its
    remembered ETag included; when it does not, the remembered ETag is
    gone. *)
Theorem downloadAppScript_failure_keeps_state (this : t) (u : string) (w : World)
    (e : Error) :
  (net w (bundleRequest this u w) = NetError e
   \/ exists res, net w (bundleRequest this u w) = Responded res
                  /\ statusCode res <> 200 /\ statusCode res <> 304
                  /\ e = mkError KError (res_body res)) ->
  let out := downloadAppScript this u w in
  fst (fst out) = Rejected e
  /\ files (snd out) = files w
  /\ pending (snd out) = pending w
  /\ since w (snd out) = [EHttpGet (bundleRequest this u w)]
  /\ (FileSystem.existsSync (scriptFilePath this u) w = true -> snd (fst out) = this)
  /\ (FileSystem.existsSync (scriptFilePath this u) w = false ->
      snd (fst out) = set_etag None this).
Proof.
  intros C out.
  assert (E : downloadAppScript this u w
              = (Rejected e, primed this u w,
                 emit (EHttpGet (bundleRequest this u w)) w)).
  { destruct C as [Hn | (res & Hn & H2 & H3 & ->)].
    - apply downloadAppScript_error, Hn.
    - apply downloadAppScript_bad; assumption. }
  subst out. rewrite E. cbn [fst snd].
  split; [reflexivity|]. split; [reflexivity|]. split; [reflexivity|].
  split; [apply since_emit|]. split.
  - apply primed_cached.
  - intros Hm. unfold primed. rewrite Hm. reflexivity.
Qed.

(** What a 200 answer that refers to a source map leaves behind. *)
Lemma downloadAppScript_200_map (this : t) (u : string) (w : World)
    (res : HttpResponse) (sm : Url) :
  net w (bundleRequest this u w) = Responded res ->
  statusCode res = 200 ->
  getSourceMapURL (url_parse (overriddenScriptUrlString this u)) (res_body res)
    = Some sm ->
  fst (fst (downloadAppScript this u w)) = Fulfilled (scriptFilePath this u)
  /\ since w (snd (downloadAppScript this u w))
     = [EHttpGet (bundleRequest this u w);
        EHttpGet (mkRequest (href sm) ∅);
        EWriteFile (scriptFilePath this u) (updateScriptPaths (res_body res) sm);
        ELog ("Script " +:+ overriddenScriptUrlString this u
              +:+ " downloaded to " +:+ scriptFilePath this u)]
  /\ pending (snd (downloadAppScript this u w))
     = pending w
       ++ [mkJob (net w (mkRequest (href sm) ∅)) sm
                 (url_parse (overriddenScriptUrlString this u))].
Proof.
  intros Hn H2 Hsm.
  rewrite (downloadAppScript_200_world _ _ _ _ Hn H2). unfold storedBody.
  rewrite Hsm. cbn [fst snd]. split; [reflexivity|]. split.
  - apply since_app. cbn. rewrite <- !app_assoc. reflexivity.
  - reflexivity.
Qed.

(** X5.  A 200 answer whose body refers to a source map: the GET of the
    map goes out right after the GET of the bundle and before the bundle
    is written, its outcome is left pending, and the download is fulfilled
    with the cache path without waiting for it, whatever that outcome is.
    The bundle is stored with its reference made local. *)
Theorem downloadAppScript_starts_source_map (this : t) (u : string) (w : World)
    (res : HttpResponse) (sm : Url) :
  net w (bundleRequest this u w) = Responded res ->
  statusCode res = 200 ->
  getSourceMapURL (url_parse (overriddenScriptUrlString this u)) (res_body res)
    = Some sm ->
  let out := downloadAppScript this u w in
  fst (fst out) = Fulfilled (scriptFilePath this u)
  /\ since w (snd out)
     = [EHttpGet (bundleRequest this u w);
        EHttpGet (mkRequest (href sm) ∅);
        EWriteFile (scriptFilePath this u) (updateScriptPaths (res_body res) sm);
        ELog ("Script " +:+ overriddenScriptUrlString this u
              +:+ " downloaded to " +:+ scriptFilePath this u)]
  /\ pending (snd out)
     = pending w
       ++ [mkJob (net w (mkRequest (href sm) ∅)) sm
                 (url_parse (overriddenScriptUrlString this u))].
Proof.
  intros Hn H2 Hsm out. subst out. apply downloadAppScript_200_map; assumption.
Qed.

(** X6.  A download starts at most one source map download, and only on
    a 200 answer whose body refers to a map: exactly one job is then added
    to the pending ones.  A 200 answer without such a reference, an answer
    with any other status (a 304 included) and a GET that fails with a
    connection error leave the pending downloads as they were. *)
Theorem downloadAppScript_pending (this : t) (u : string) (w : World) :
  let out := downloadAppScript this u w in
  let scriptUrl := url_parse (overriddenScriptUrlString this u) in
  (forall res sm,
     net w (bundleRequest this u w) = Responded res ->
     statusCode res = 200 ->
     getSourceMapURL scriptUrl (res_body res) = Some sm ->
     pending (snd out)
     = pending w ++ [mkJob (net w (mkRequest (href sm) ∅)) sm scriptUrl])
  /\ (forall res,
        net w (bundleRequest this u w) = Responded res ->
        statusCode res = 200 ->
        getSourceMapURL scriptUrl (res_body res) = None ->
        pending (snd out) = pending w)
  /\ (forall res,
        net w (bundleRequest this u w) = Responded res ->
        statusCode res <> 200 ->
        pending (snd out) = pending w)
  /\ (forall e,
        net w (bundleRequest this u w) = NetError e ->
        pending (snd out) = pending w).
Proof.
  intros out scriptUrl. subst out scriptUrl. split; [|split; [|split]].
  - intros res sm Hn H2 Hsm.
    apply (downloadAppScript_200_map this u w res sm Hn H2 Hsm).
  - intros res Hn H2 Hsm.
    rewrite (downloadAppScript_200_world _ _ _ _ Hn H2), Hsm. reflexivity.
  - intros res Hn H2. destruct (decide (statusCode res = 304)) as [H3|H3].
    + rewrite (downloadAppScript_304 _ _ _ _ Hn H3). reflexivity.
    + rewrite (downloadAppScript_bad _ _ _ _ Hn H2 H3). reflexivity.
  - intros e Hn. rewrite (downloadAppScript_error _ _ _ _ Hn). reflexivity.
Qed.

End Extras.
End ImporterExtras.

(** ** Texts inside texts *)

Lemma append_assoc (a b c : string) : (a +:+ b) +:+ c = a +:+ b +:+ c.
Proof.
  induction a as [|x a IH]; [reflexivity|].
  change (String x ((a +:+ b) +:+ c) = String x (a +:+ b +:+ c)).
  rewrite IH. reflexivity.
Qed.

Lemma append_nil_r (a : string) : a +:+ "" = a.
Proof.
  induction a as [|x a IH]; [reflexivity|].
  change (String x (a +:+ "") = String x a). rewrite IH. reflexivity.
Qed.

Lemma contains_refl (s : string) : contains s s.
Proof. exists "", "". cbn. rewrite append_nil_r. reflexivity. Qed.

Lemma contains_app_r (x p s : string) : contains x s -> contains x (p +:+ s).
Proof.
  intros (pre & post & ->). exists (p +:+ pre), post. rewrite append_assoc. reflexivity.
Qed.

Lemma contains_app_l (x s q : string) : contains x s -> contains x (s +:+ q).
Proof.
  intros (pre & post & ->). exists pre, (post +:+ q).
  rewrite !append_assoc. reflexivity.
Qed.

(** The host part is written into the formatted URL. *)
Lemma url_format_contains_host (u : Url) (h : string) :
  format_host u = Some h -> contains h (url_format u).
Proof.
  intros Hh. unfold url_format. rewrite Hh. cbn [option_map or_empty default].
  apply contains_app_r, contains_app_l.
  destruct (slashes u || _); [apply contains_app_r|];
    apply contains_app_r, contains_refl.
Qed.

Module ImporterExtras2.
Section Extras.
Import Request RequestFacts ScriptImporter ImporterFacts ImporterClaims ImporterExtras.

Context `{Collaborators}.

(** X7.  The rest of [writeAppSourceMap], run when the GET of the map is
    answered: a 200 answer writes the map, rewritten by
    [updateSourceMapFile] for the local bundle name, to the storage
    directory under the base name of the map's path, and touches no other
    file; any other status rejects with the body as message, a connection
    error rejects with that error, and neither writes anything. *)
Theorem finishAppSourceMap_contract (this : t) (j : SourceMapJob) (w : World) :
  let mapPath := path_join (sourcesStoragePath this)
                           (path_basename (pathname (job_mapUrl j))) in
  let out := finishAppSourceMap this j w in
  (forall res,
     job_outcome j = Responded res -> statusCode res = 200 ->
     let content :=
       updateSourceMapFile (res_body res)
         (path_basename (pathname (job_scriptUrl j))) (sourcesStoragePath this) in
     fst out = Fulfilled tt
     /\ since w (snd out) = [EWriteFile mapPath content]
     /\ files (snd out) !! mapPath = Some content
     /\ forall p, p <> mapPath -> files (snd out) !! p = files w !! p)
  /\ (forall res,
        job_outcome j = Responded res -> statusCode res <> 200 ->
        out = (Rejected (mkError KError (res_body res)), w))
  /\ (forall e, job_outcome j = NetError e -> out = (Rejected e, w)).
Proof.
  intros mapPath out. subst mapPath out. unfold finishAppSourceMap, request_result.
  split; [|split].
  - intros res -> ->. cbn. split; [reflexivity|]. split.
    + apply since_app. reflexivity.
    + split; [apply lookup_insert_eq|].
      intros p Hp. apply lookup_insert_ne. congruence.
  - intros res -> Hne. apply Z.eqb_neq in Hne. cbn. rewrite Hne. reflexivity.
  - intros e ->. reflexivity.
Qed.

(** X8.  A download whose bundle refers to a source map, followed by the
    pending rest of the map download when the map is answered with a 200:
    the map is stored, rewritten for the base name the bundle is cached
    under; the bundle stays stored with its reference made local, unless
    the map has the same base name as the bundle, in which case the map
    has replaced it. *)
Theorem bundle_then_source_map_stored (this : t) (u : string) (w : World)
    (res mres : HttpResponse) (sm : Url) :
  net w (bundleRequest this u w) = Responded res ->
  statusCode res = 200 ->
  getSourceMapURL (url_parse (overriddenScriptUrlString this u)) (res_body res)
    = Some sm ->
  net w (mkRequest (href sm) ∅) = Responded mres ->
  statusCode mres = 200 ->
  let out := downloadAppScript this u w in
  let mapPath := path_join (sourcesStoragePath this) (path_basename (pathname sm)) in
  let mapContent :=
    updateSourceMapFile (res_body mres)
      (path_basename (pathname (url_parse (overriddenScriptUrlString this u))))
      (sourcesStoragePath this) in
  exists j,
    pending (snd out) = pending w ++ [j]
    /\ let w2 := snd (finishAppSourceMap (snd (fst out)) j (snd out)) in
       files w2 !! mapPath = Some mapContent
       /\ files w2 !! scriptFilePath this u
          = if decide (mapPath = scriptFilePath this u)
            then Some mapContent
            else Some (updateScriptPaths (res_body res) sm).
Proof.
  intros Hn H2 Hsm Hm Hm2 out mapPath mapContent.
  destruct (downloadAppScript_200_map this u w res sm Hn H2 Hsm) as (_ & _ & P).
  eexists. split; [exact P|].
  subst out. rewrite (downloadAppScript_200_world _ _ _ _ Hn H2).
  unfold storedBody. rewrite Hsm. cbn [fst snd].
  assert (Ps : sourcesStoragePath (primed this u w) = sourcesStoragePath this).
  { unfold primed. destruct (negb _); reflexivity. }
  unfold finishAppSourceMap, request_result. cbn [job_outcome job_mapUrl job_scriptUrl].
  rewrite Hm, Hm2. cbn [andb negb Z.eqb Pos.eqb snd sourcesStoragePath set_etag].
  rewrite Ps. fold mapPath. fold mapContent. cbn [files FileSystem.writeFile].
  split; [apply lookup_insert_eq|].
  destruct (decide (mapPath = scriptFilePath this u)) as [E|N].
  - rewrite <- E. apply lookup_insert_eq.
  - rewrite lookup_insert_ne by exact N. cbn. apply lookup_insert_eq.
Qed.

(** X9.  The importer remembers one ETag, not one per URL: after a
    download answered with a non-empty ETag, a download of any URL whose
    cache file exists sends that ETag in [If-None-Match], also when the URL
    is not the one the ETag was received for. *)
Theorem etag_sent_for_any_cached_url (this : t) (u1 : string) (w : World)
    (p : string) (this1 : t) (w1 : World) (e : string) (u2 : string) (w2 : World) :
  downloadAppScript this u1 w = (Fulfilled p, this1, w1) ->
  appScriptEtag this1 = Some e -> e <> "" ->
  FileSystem.existsSync (scriptFilePath this u2) w2 = true ->
  exists rest,
    since w2 (snd (downloadAppScript this1 u2 w2))
    = EHttpGet (mkRequest (overriddenScriptUrlString this u2)
                          {[ "If-None-Match" := e ]}) :: rest.
Proof.
  intros E He Hne Hfile.
  destruct (downloadAppScript_fulfilled _ _ _ _ _ _ E) as (_ & res & _ & _ & ->).
  set (this1 := set_etag (response_etag res) (primed this u1 w)) in *.
  assert (Hov : overriddenScriptUrlString this1 u2 = overriddenScriptUrlString this u2).
  { unfold this1. rewrite overridden_set_etag. apply primed_overridden. }
  assert (Hpath : scriptFilePath this1 u2 = scriptFilePath this u2).
  { unfold this1. rewrite scriptFilePath_set_etag. apply primed_scriptFilePath. }
  destruct (downloadAppScript_first_effect this1 u2 w2) as (rest & T).
  exists rest. rewrite T. f_equal. f_equal.
  unfold bundleRequest. rewrite Hov, primed_cached by (rewrite Hpath; exact Hfile).
  rewrite He. unfold etag_request. destruct e; [congruence | reflexivity].
Qed.

(** X10.  [downloadDebuggerWorker] asks once whether the packager is
    running, before anything else, and never writes a file nor leaves a
    download pending.  With the packager running, a connection error
    rejects with that error and an answer with a status other than 200
    rejects with an [Error] whose message is the body. *)
Theorem downloadDebuggerWorker_effects (this : t) (w : World) :
  let host := getHostForPort (packagerPort this) in
  let r := mkRequest (debuggerWorkerURL this) ∅ in
  let out := downloadDebuggerWorker this w in
  files (snd out) = files w
  /\ pending (snd out) = pending w
  /\ (exists rest,
        since w (snd out) = EIsRunning host :: rest
        /\ forall e, In e rest ->
             e = ELog ("About to download: " +:+ debuggerWorkerURL this)
             \/ e = EHttpGet r)
  /\ (running w host = true ->
      (forall e, net w r = NetError e -> fst out = Rejected e)
      /\ (forall res,
            net w r = Responded res -> statusCode res <> 200 ->
            fst out = Rejected (mkError KError (res_body res)))).
Proof.
  intros host r out. subst host r out.
  unfold downloadDebuggerWorker, isPackagerRunning.
  destruct (running w (getHostForPort (packagerPort this))) eqn:R; cbn [negb].
  - unfold request, http_get. cbn [fst snd].
    split; [reflexivity|]. split; [reflexivity|]. split.
    + eexists. split.
      * apply since_app. cbn. rewrite <- !app_assoc. reflexivity.
      * intros e [<- | [<- | []]]; auto.
    + intros _. cbn [net emit]. split.
      * intros e ->. reflexivity.
      * intros res -> Hne. apply Z.eqb_neq in Hne. cbn. rewrite Hne. reflexivity.
  - cbn [fst snd]. split; [reflexivity|]. split; [reflexivity|]. split.
    + exists []. split; [apply since_emit | intros e []].
    + discriminate.
Qed.

(** X16.  A 304 answer is trusted without a look at the cache: when no file
    exists at the cache path and the unconditional GET is answered with a
    304 all the same, the download is fulfilled with the cache path, though
    nothing was written and no file exists there. *)
Theorem downloadAppScript_trusts_304 (this : t) (u : string) (w : World)
    (res : HttpResponse) :
  FileSystem.existsSync (scriptFilePath this u) w = false ->
  net w (mkRequest (overriddenScriptUrlString this u) ∅) = Responded res ->
  statusCode res = 304 ->
  let out := downloadAppScript this u w in
  fst (fst out) = Fulfilled (scriptFilePath this u)
  /\ writes (since w (snd out)) = []
  /\ FileSystem.existsSync (scriptFilePath this u) (snd out) = false.
Proof.
  intros Hmissing Hn H3 out. subst out.
  assert (Hreq : bundleRequest this u w
                 = mkRequest (overriddenScriptUrlString this u) ∅).
  { unfold bundleRequest. rewrite (primed_missing _ _ _ Hmissing). reflexivity. }
  rewrite <- Hreq in Hn. rewrite (downloadAppScript_304 _ _ _ _ Hn H3).
  cbn [fst snd]. split; [reflexivity|]. split.
  - rewrite since_emit. reflexivity.
  - exact Hmissing.
Qed.

(** X11.  The URL fetched for a bundle on [localhost] contains
    [localhost:] followed by the configured packager port, written in
    decimal, whatever port the given URL named. *)
Theorem localhost_fetch_url_names_port (this : t) (u : string) :
  hostname (url_parse u) = Some "localhost" ->
  contains ("localhost:" +:+ toString (packagerPort this))
           (overriddenScriptUrlString this u).
Proof.
  intros Hloc. unfold overriddenScriptUrlString.
  rewrite bool_decide_eq_true_2 by exact Hloc.
  unfold overridePackagerPort. apply url_format_contains_host.
  unfold format_host. cbn [delete_host set_port host hostname port].
  rewrite Hloc.
  pose proof (toString_nonempty (packagerPort this)) as Hp.
  destruct (toString (packagerPort this)) as [|c p']; [congruence | reflexivity].
Qed.

End Extras.
End ImporterExtras2.

(** ** [AppCenterCommandPalleteHandler] *)

Module AppCenterFacts.
Import AppCenter.

(** X12.  Unless the authentication check answers [true], no command is
    executed other than [Login], which is executed without the check; the
    handler's client is left as it was and no client is looked up. *)
Theorem unauthenticated_runs_only_login (env : Env) (this : t)
    (command : AppCenterCommandType) (manager : nat) :
  isAuthenticated env <> Fulfilled true ->
  let out := run env this command manager in
  List.filter is_executor (snd out)
  = match command with Login => [CLogin manager] | _ => [] end
  /\ List.filter is_lookup (snd out) = []
  /\ snd (fst out) = this.
Proof.
  intros Hno out. subst out. unfold run.
  destruct command; try (cbn; auto; fail);
    destruct (isAuthenticated env) as [[|]|e]; try congruence; cbn; auto.
Qed.

(** X13.  When [run] is rejected, the error is the one the authentication
    check was rejected with, or the one the single executor method it
    called was rejected with, or - no executor having been called - it
    says that no user is specified, that no client could be had, or that
    the command is unknown.  The last is what the handler answers to a
    number that is none of the five members of the enum, once the user is
    known to be logged in and a client is at hand, which it keeps. *)
Theorem run_rejection_causes (env : Env) (this : t)
    (command : AppCenterCommandType) (manager : nat)
    (e : Error) (this' : t) (calls : list Call) :
  run env this command manager = (Rejected e, this', calls) ->
  (command <> Login /\ isAuthenticated env = Rejected e
   /\ List.filter is_executor calls = [])
  \/ (exists call, List.filter is_executor calls = [call]
                   /\ execute env call = Rejected e)
  \/ (isAuthenticated env = Fulfilled true
      /\ List.filter is_executor calls = []
      /\ (e = mkError KError "No App Center user specified"
          \/ e = mkError KError "Failed to get App Center client!"))
  \/ (exists n c, command = Unlisted n
                  /\ (number command < 0 \/ 4 < number command)
                  /\ isAuthenticated env = Fulfilled true
                  /\ client this' = Some c
                  /\ List.filter is_executor calls = []
                  /\ e = mkError KError "Unknown App Center command!").
Proof.
  unfold run, resolveAppCenterClient. intros E.
  destruct command as [| | | | |n].
  1: { injection E as E <- <-. right; left. exists (CLogin manager). auto. }
  all: destruct (isAuthenticated env) as [[|]|e0]; [|discriminate E|].
  all: try (injection E as <- <- <-; left; repeat split; auto; discriminate).
  all: destruct (client this) as [c|]; [|destruct (getUser env) as [user|]];
         [|destruct (fromProfile env user (endpoint env)) as [c|]|];
         injection E as E <- <-; cbn;
         try (right; left; eexists; split; [reflexivity | exact E]);
         subst e;
         try (right; right; left; auto; fail);
         right; right; right; exists n, c; repeat split; auto;
         cbn [number]; destruct (Z.leb_spec 0 n); lia.
Qed.

(** A handler that has a client keeps it, looks for no other and hands it
    to every executor. *)
Lemma run_with_client (env : Env) (this : t) (c : nat)
    (command : AppCenterCommandType) (manager : nat) :
  client this = Some c ->
  client (snd (fst (run env this command manager))) = Some c
  /\ List.filter is_lookup (snd (run env this command manager)) = []
  /\ forall call k,
       In call (snd (run env this command manager)) ->
       client_of call = Some k -> k = c.
Proof.
  intros Hc. unfold run, resolveAppCenterClient. rewrite Hc.
  destruct command; [cbn; repeat split; auto; intros call k [<- | []]; discriminate|..];
    destruct (isAuthenticated env) as [[|]|e0]; cbn; repeat split; auto;
    intros call k Hin Hk;
    repeat (destruct Hin as [<- | Hin]; [cbn in Hk; congruence|]); destruct Hin.
Qed.

Lemma runs_with_client (this : t) (c : nat) (l : list (Env * AppCenterCommandType * nat)) :
  client this = Some c ->
  client (fst (runs this l)) = Some c
  /\ List.filter is_lookup (snd (runs this l)) = []
  /\ forall call k, In call (snd (runs this l)) -> client_of call = Some k -> k = c.
Proof.
  revert this. induction l as [|[[env command] manager] l IH]; intros this Hc.
  - cbn. repeat split; auto. intros call k [].
  - cbn [runs].
    destruct (run_with_client env this c command manager Hc) as (R1 & R2 & R3).
    destruct (run env this command manager) as [[r this'] calls]. cbn [fst snd] in *.
    destruct (IH this' R1) as (I1 & I2 & I3).
    destruct (runs this' l) as [this'' calls']. cbn [fst snd] in *.
    split; [exact I1|]. split.
    + rewrite List.filter_app, R2, I2. reflexivity.
    + intros call k Hin Hk. apply in_app_or in Hin as [Hin | Hin]; eauto.
Qed.

(** X14.  The client is created once: the first command of a logged-in
    user other than [Login], run by a handler without a client, looks the
    user up and creates the client from the profile; the handler keeps
    that client even if the command's executor fails, and whatever
    commands follow, with whatever answers, no client is looked up again
    and every executor that takes a client is handed that one. *)
Theorem client_is_created_once (env : Env) (this : t)
    (command : AppCenterCommandType) (manager user c : nat)
    (l : list (Env * AppCenterCommandType * nat)) :
  client this = None ->
  command <> Login ->
  isAuthenticated env = Fulfilled true ->
  getUser env = Some user ->
  fromProfile env user (endpoint env) = Some c ->
  let out := runs this ((env, command, manager) :: l) in
  client (fst out) = Some c
  /\ List.filter is_lookup (snd out) = [CGetUser; CFromProfile user (endpoint env)]
  /\ forall call k, In call (snd out) -> client_of call = Some k -> k = c.
Proof.
  intros Hnone Hcmd Hauth Huser Hprof out. subst out. cbn [runs].
  assert (R : client (snd (fst (run env this command manager))) = Some c
              /\ List.filter is_lookup (snd (run env this command manager))
                 = [CGetUser; CFromProfile user (endpoint env)]
              /\ forall call k,
                   In call (snd (run env this command manager)) ->
                   client_of call = Some k -> k = c).
  { unfold run, resolveAppCenterClient. rewrite Hnone, Hauth, Huser, Hprof.
    destruct command; [congruence|..]; cbn; repeat split; auto;
      intros call k Hin Hk;
      repeat (destruct Hin as [<- | Hin]; [cbn in Hk; congruence|]); destruct Hin. }
  destruct R as (R1 & R2 & R3).
  destruct (run env this command manager) as [[r this'] calls]. cbn [fst snd] in *.
  destruct (runs_with_client this' c l R1) as (I1 & I2 & I3).
  destruct (runs this' l) as [this'' calls']. cbn [fst snd] in *.
  split; [exact I1|]. split.
  - rewrite List.filter_app, R2, I2. reflexivity.
  - intros call k Hin Hk. apply in_app_or in Hin as [Hin | Hin]; eauto.
Qed.

(** X15.  A logged-in user without a stored profile, on a handler without
    a client, can execute no command but [Login]: every other command -
    [SetCurrentApp] too, whose executor takes no client - is rejected with
    "No App Center user specified" after the user was looked up, and the
    handler stays without a client. *)
Theorem no_profile_no_command (env : Env) (this : t)
    (command : AppCenterCommandType) (manager : nat) :
  client this = None ->
  command <> Login ->
  isAuthenticated env = Fulfilled true ->
  getUser env = None ->
  run env this command manager
  = (Rejected (mkError KError "No App Center user specified"), this,
     [CIsAuthenticated; CGetUser]).
Proof.
  intros Hnone Hcmd Hauth Huser. unfold run, resolveAppCenterClient.
  rewrite Hnone, Hauth, Huser. destruct command; [congruence|..]; reflexivity.
Qed.

End AppCenterFacts.

Module MoreWitnesses.
Import Fixture Runs MoreRuns Request ScriptImporter.


Lemma downloadAppScript_failure_keeps_state_witness :
  fst (fst (downloadAppScript tagged bundleUrl gone))
  = Rejected (mkError KError "Not found")
  /\ files (snd (downloadAppScript tagged bundleUrl gone)) = files gone
  /\ snd (fst (downloadAppScript tagged bundleUrl gone)) = tagged.
Proof.
  destruct (ImporterExtras.downloadAppScript_failure_keeps_state
              tagged bundleUrl gone (mkError KError "Not found"))
    as (Hres & Hfiles & _ & _ & Hsame & _).
  - right. exists (mkResponse 404 (Some ∅) "Not found").
    split; [vm_compute; reflexivity|]. repeat split; discriminate.
  - split; [exact Hres|]. split; [exact Hfiles|].
    apply Hsame. vm_compute. reflexivity.
Defined.

Lemma downloadAppScript_starts_source_map_witness :
  fst (fst (downloadAppScript importer bundleUrl mapped))
  = Fulfilled "/tmp/rn/index.bundle"
  /\ gets (since mapped (snd (downloadAppScript importer bundleUrl mapped)))
     = [EHttpGet (mkRequest bundleUrl ∅); EHttpGet (mkRequest mapUrl ∅)].
Proof.
  destruct (ImporterExtras.downloadAppScript_starts_source_map
              importer bundleUrl mapped
              (mkResponse 200 (Some {[ "etag" := "v1" ]}) mappedBody)
              (simple_parse mapUrl))
    as (Hres & Htrace & _).
  - vm_compute. reflexivity.
  - reflexivity.
  - vm_compute. reflexivity.
  - split; [exact Hres|]. rewrite Htrace. vm_compute. reflexivity.
Defined.

Lemma bundle_then_source_map_stored_witness :
  exists j,
    pending (snd (downloadAppScript importer bundleUrl mapped)) = [j]
    /\ files (snd (finishAppSourceMap
                      (snd (fst (downloadAppScript importer bundleUrl mapped))) j
                      (snd (downloadAppScript importer bundleUrl mapped))))
       !! "/tmp/rn/index.map" = Some "{}"
    /\ files (snd (finishAppSourceMap
                      (snd (fst (downloadAppScript importer bundleUrl mapped))) j
                      (snd (downloadAppScript importer bundleUrl mapped))))
       !! "/tmp/rn/index.bundle" = Some mappedBody.
Proof.
  destruct (ImporterExtras2.bundle_then_source_map_stored
              importer bundleUrl mapped
              (mkResponse 200 (Some {[ "etag" := "v1" ]}) mappedBody)
              (mkResponse 200 (Some ∅) "{}")
              (simple_parse mapUrl))
    as (j & Hp & Hmap & Hbundle).
  - vm_compute. reflexivity.
  - reflexivity.
  - vm_compute. reflexivity.
  - vm_compute. reflexivity.
  - reflexivity.
  - exists j. split; [exact Hp|]. split; [exact Hmap|]. exact Hbundle.
Defined.

Lemma etag_sent_for_any_cached_url_witness :
  exists rest,
    since twoCached
      (snd (downloadAppScript warmed "http://localhost:8081/other.bundle" twoCached))
    = EHttpGet (mkRequest "http://localhost:8081/other.bundle"
                          {[ "If-None-Match" := "v1" ]}) :: rest.
Proof.
  destruct (ImporterExtras2.etag_sent_for_any_cached_url
              importer bundleUrl cold "/tmp/rn/index.bundle" warmed warm "v1"
              "http://localhost:8081/other.bundle" twoCached)
    as (rest & E).
  - vm_compute. reflexivity.
  - vm_compute. reflexivity.
  - discriminate.
  - vm_compute. reflexivity.
  - exists rest. rewrite E. vm_compute. reflexivity.
Defined.

Lemma downloadAppScript_trusts_304_witness :
  fst (fst (downloadAppScript importer bundleUrl unchanged))
  = Fulfilled "/tmp/rn/index.bundle"
  /\ FileSystem.existsSync "/tmp/rn/index.bundle"
       (snd (downloadAppScript importer bundleUrl unchanged)) = false.
Proof.
  destruct (ImporterExtras2.downloadAppScript_trusts_304 importer bundleUrl unchanged
              (mkResponse 304 (Some ∅) ""))
    as (Hres & _ & Hfile).
  - vm_compute. reflexivity.
  - vm_compute. reflexivity.
  - reflexivity.
  - split; [exact Hres | exact Hfile].
Defined.

Lemma localhost_fetch_url_names_port_witness :
  contains "localhost:9090"
    (overriddenScriptUrlString (ScriptImporter.mk 9090 None "/tmp/rn")
       "http://localhost:8081/index.bundle?platform=ios").
Proof.
  apply (ImporterExtras2.localhost_fetch_url_names_port
           (ScriptImporter.mk 9090 None "/tmp/rn")
           "http://localhost:8081/index.bundle?platform=ios").
  vm_compute. reflexivity.
Defined.

Import AppCenter.

Lemma unauthenticated_runs_only_login_witness :
  List.filter is_executor (snd (run loggedOut fresh Logout 3)) = []
  /\ List.filter is_executor (snd (run loggedOut fresh Login 3)) = [CLogin 3].
Proof.
  split.
  - apply (AppCenterFacts.unauthenticated_runs_only_login loggedOut fresh Logout 3).
    discriminate.
  - apply (AppCenterFacts.unauthenticated_runs_only_login loggedOut fresh Login 3).
    discriminate.
Defined.

Lemma run_rejection_causes_witness :
  fst (fst (run loggedIn fresh (Unlisted 94) 3))
  = Rejected (mkError KError "Unknown App Center command!")
  /\ (exists c, client (snd (fst (run loggedIn fresh (Unlisted 94) 3))) = Some c)
  /\ List.filter is_executor (snd (run loggedIn fresh (Unlisted 94) 3)) = []
  /\ fst (fst (run loggedIn fresh Whoami 3)) = Fulfilled tt.
Proof.
  split; [reflexivity|].
  destruct (AppCenterFacts.run_rejection_causes loggedIn fresh (Unlisted 94) 3
              (mkError KError "Unknown App Center command!")
              (snd (fst (run loggedIn fresh (Unlisted 94) 3)))
              (snd (run loggedIn fresh (Unlisted 94) 3)) eq_refl)
    as [(_ & Ha & _) | [(call & Hc & _) | [(_ & _ & [He | He])
        | (n & c & _ & _ & _ & Hcl & Hex & _)]]].
  - discriminate Ha.
  - vm_compute in Hc. discriminate Hc.
  - discriminate He.
  - discriminate He.
  - split; [exists c; exact Hcl|]. split; [exact Hex | reflexivity].
Defined.

Lemma client_is_created_once_witness :
  client (fst (runs fresh [(loggedIn, Whoami, 3%nat); (loggedIn, Logout, 3%nat);
                           (loggedOut, Whoami, 3%nat)])) = Some 8%nat
  /\ List.filter is_lookup
       (snd (runs fresh [(loggedIn, Whoami, 3%nat); (loggedIn, Logout, 3%nat);
                         (loggedOut, Whoami, 3%nat)]))
     = [CGetUser; CFromProfile 7 "https://api.appcenter.ms"].
Proof.
  destruct (AppCenterFacts.client_is_created_once loggedIn fresh Whoami 3 7 8
              [(loggedIn, Logout, 3%nat); (loggedOut, Whoami, 3%nat)])
    as (Hc & Hl & _); try reflexivity.
  - discriminate.
  - split; [exact Hc | exact Hl].
Defined.

Lemma no_profile_no_command_witness :
  run noProfile fresh SetCurrentApp 3
  = (Rejected (mkError KError "No App Center user specified"), fresh,
     [CIsAuthenticated; CGetUser]).
Proof.
  apply (AppCenterFacts.no_profile_no_command noProfile fresh SetCurrentApp 3);
    try reflexivity.
  discriminate.
Defined.

End MoreWitnesses.
